(** * tools/autogen.py: the generator of the HPy context stubs

    A shallow embedding of [tools/autogen.py].  The script walks the
    declarations of [tools/public_api.h] (parsed by pycparser), keeps the
    [HPy*] functions and the [h_*] globals, and prints four texts: the
    declaration of [struct _HPyContext_s], its static initializer, the
    inline trampolines and the RPython description of the struct.

    Python values are modelled as the script uses them: exceptions are an
    explicit result type, the working state of a run (standard output and
    the files on disk) is threaded through a state-and-exception monad, and
    lists are indexed with Python's rules for negative indices. *)

From Stdlib Require Import ZArith Ascii.
From stdpp Require Import base option list strings gmap.

Local Open Scope Z_scope.

(** ** Python substrate *)

(** The exceptions the script can raise. *)
Inductive exn : Type :=
| AttributeError
| IndexError
| TypeError
| AssertionError
| ValueError (msg : string).

Inductive result (A : Type) : Type :=
| Ok (a : A)
| Raise (e : exn).
Arguments Ok {A} a.
Arguments Raise {A} e.

#[global] Instance result_ret : MRet result := fun A a => Ok a.
#[global] Instance result_bind : MBind result := fun A B k m =>
  match m with
  | Ok a => k a
  | Raise e => Raise e
  end.
#[global] Instance result_fmap : FMap result := fun A B f m =>
  match m with
  | Ok a => Ok (f a)
  | Raise e => Raise e
  end.

Definition is_Ok {A} (r : result A) : bool :=
  match r with Ok _ => true | Raise _ => false end.

(** [for x in l: body(x)] where the body may raise and yields a value that
    is collected: a list comprehension. *)
Fixpoint comprehension {A B} (body : A -> result B) (l : list A)
  : result (list B) :=
  match l with
  | [] => Ok []
  | x :: l' =>
      y ← body x;
      ys ← comprehension body l';
      mret (y :: ys)
  end.

Module Py.

Definition nl : string := String "010"%char "".

(** [sep.join(parts)] for parts that are all [str]. *)
Definition join (sep : string) (parts : list string) : string :=
  String.concat sep parts.

(** [sep.join(parts)]: an element that is [None] raises [TypeError]. *)
Definition join_opt (sep : string) (parts : list (option string))
  : result string :=
  parts' ← comprehension
    (fun p => match p with Some s => Ok s | None => Raise TypeError end)
    parts;
  mret (join sep parts').

(** ['%s' % x] for a value that is a [str] or [None]. *)
Definition str (x : option string) : string :=
  match x with Some s => s | None => "None" end.

(** [s.startswith(p)]. *)
Definition startswith (s p : string) : bool := String.prefix p s.

(** The rest of [s] after the prefix [p], when [s] starts with [p]. *)
Fixpoint strip_prefix (p s : string) : option string :=
  match p, s with
  | EmptyString, _ => Some s
  | String a p', String b s' =>
      if Ascii.eqb a b then strip_prefix p' s' else None
  | String _ _, EmptyString => None
  end.

(** [str.upper] on ASCII text. *)
Definition upper_ascii (c : ascii) : ascii :=
  let n := Ascii.nat_of_ascii c in
  if ((97 <=? n)%nat && (n <=? 122)%nat)%bool
  then Ascii.ascii_of_nat (n - 32) else c.

Fixpoint upper (s : string) : string :=
  match s with
  | EmptyString => EmptyString
  | String c s' => String (upper_ascii c) (upper s')
  end.

(** The position of index [i] in a sequence of length [n]: a negative
    index counts from the end. *)
Definition norm_index (n i : Z) : Z := if i <? 0 then i + n else i.

(** [l[i]]. *)
Definition index {A} (l : list A) (i : Z) : result A :=
  let j := norm_index (Z.of_nat (length l)) i in
  if j <? 0 then Raise IndexError
  else match l !! Z.to_nat j with
       | Some x => Ok x
       | None => Raise IndexError
       end.

(** [l[i] = v]. *)
Definition setitem {A} (l : list A) (i : Z) (v : A) : result (list A) :=
  let j := norm_index (Z.of_nat (length l)) i in
  if (j <? 0) || (Z.of_nat (length l) <=? j) then Raise IndexError
  else Ok (<[Z.to_nat j := v]> l).

(** [l[:stop]]. *)
Definition slice_to {A} (l : list A) (stop : Z) : list A :=
  let n := Z.of_nat (length l) in
  let k := if stop <? 0 then Z.max 0 (stop + n) else Z.min stop n in
  take (Z.to_nat k) l.

(** [sub in s]. *)
Fixpoint contains (sub s : string) : bool :=
  String.prefix sub s
  || match s with
     | EmptyString => false
     | String _ s' => contains sub s'
     end.

(** [repr(s)] of a string without quotes or escapes, as C identifiers
    are. *)
Definition repr (s : string) : string := "'" +:+ s +:+ "'".

End Py.

(** ** The declaration trees of pycparser

    The node classes of [pycparser.c_ast] that a prototype or a global of
    [public_api.h] is made of.  [FuncDecl.args] is a [ParamList] or [None]
    (an empty pair of parentheses); the fields of [Decl] that stay empty in
    a header of prototypes (quals, storage, funcspec, init, bitsize) are
    left out. *)
#[warnings="-register-all"]
Inductive Node : Type :=
| IdentifierType (names : list string)
| TypeDecl (declname : option string) (quals : list string) (type : Node)
| PtrDecl (quals : list string) (type : Node)
| FuncDecl (args : option (list Node)) (type : Node)
| Decl (name : option string) (type : Node)
| Typename (name : option string) (type : Node)
| EllipsisParam.

Module c_ast.

(** [n.type] *)
Definition type (n : Node) : result Node :=
  match n with
  | TypeDecl _ _ t | PtrDecl _ t | FuncDecl _ t | Decl _ t | Typename _ t =>
      Ok t
  | IdentifierType _ | EllipsisParam => Raise AttributeError
  end.

(** [hasattr(n, 'name')] *)
Definition hasattr_name (n : Node) : bool :=
  match n with
  | Decl _ _ | Typename _ _ => true
  | _ => false
  end.

(** [n.name] *)
Definition name (n : Node) : result (option string) :=
  match n with
  | Decl nm _ | Typename nm _ => Ok nm
  | _ => Raise AttributeError
  end.

(** [n.args.params] *)
Definition args_params (n : Node) : result (list Node) :=
  match n with
  | FuncDecl (Some params) _ => Ok params
  | _ => Raise AttributeError
  end.

(** [n.type = t] *)
Definition set_type (n t : Node) : result Node :=
  match n with
  | TypeDecl declname quals _ => Ok (TypeDecl declname quals t)
  | PtrDecl quals _ => Ok (PtrDecl quals t)
  | FuncDecl args _ => Ok (FuncDecl args t)
  | Decl nm _ => Ok (Decl nm t)
  | Typename nm _ => Ok (Typename nm t)
  | IdentifierType _ | EllipsisParam => Raise AttributeError
  end.

(** [n.args.params = params], the list [n.args.params] updated in
    place. *)
Definition set_args_params (n : Node) (params : list Node) : result Node :=
  match n with
  | FuncDecl (Some _) t => Ok (FuncDecl (Some params) t)
  | _ => Raise AttributeError
  end.

Definition is_FuncDecl (n : Node) : bool :=
  match n with FuncDecl _ _ => true | _ => false end.
Definition is_TypeDecl (n : Node) : bool :=
  match n with TypeDecl _ _ _ => true | _ => false end.
Definition is_EllipsisParam (n : Node) : bool :=
  match n with EllipsisParam => true | _ => false end.
Definition is_Decl (n : Node) : bool :=
  match n with Decl _ _ => true | _ => false end.

End c_ast.

(** ** pycparser's C generator

    [pycparser.c_generator.CGenerator] is a library the script imports.
    The generator functions below take its [visit] as a parameter [toC];
    this module gives the rendering of declaration trees (pycparser 2.20
    and later: a bare type node is printed without its declared name) used
    to run the script on concrete headers.  On trees the parser cannot
    produce the library's behaviour is not modelled and the text is
    empty. *)
Module CGenerator.

Inductive modifier : Type :=
| ModPtr (quals : list string)
| ModFunc (args : string).

Fixpoint apply_modifiers (prev_ptr : bool) (modifiers : list modifier)
    (nstr : string) : string :=
  match modifiers with
  | [] => nstr
  | ModFunc args :: ms =>
      apply_modifiers false ms
        ((if prev_ptr then "(" +:+ nstr +:+ ")" else nstr)
           +:+ "(" +:+ args +:+ ")")
  | ModPtr [] :: ms => apply_modifiers true ms ("*" +:+ nstr)
  | ModPtr quals :: ms =>
      apply_modifiers true ms
        ("* " +:+ Py.join " " quals
           +:+ (if nstr is EmptyString then "" else " " +:+ nstr))
  end.

Definition typedecl_str (declname : option string) (quals : list string)
    (inner : string) (modifiers : list modifier) (emit_declname : bool)
  : string :=
  let s := (if quals is [] then "" else Py.join " " quals +:+ " ")
             +:+ inner in
  let nstr := apply_modifiers false modifiers
                (if emit_declname then default "" declname else "") in
  if nstr is EmptyString then s else s +:+ " " +:+ nstr.

Fixpoint visit (n : Node) : string :=
  match n with
  | IdentifierType names => Py.join " " names
  | EllipsisParam => "..."
  | Decl _ t | Typename _ t => generate_type t [] true
  | TypeDecl declname quals t =>
      typedecl_str declname quals (visit t) [] false
  | PtrDecl quals t => generate_type t [ModPtr quals] false
  | FuncDecl args t =>
      generate_type t
        [ModFunc (Py.join ", "
                    match args with
                    | Some params => map visit params
                    | None => []
                    end)] true
  end
with generate_type (n : Node) (modifiers : list modifier)
    (emit_declname : bool) : string :=
  match n with
  | TypeDecl declname quals t =>
      typedecl_str declname quals (visit t) modifiers emit_declname
  | PtrDecl quals t =>
      generate_type t (modifiers ++ [ModPtr quals]) emit_declname
  | FuncDecl args t =>
      generate_type t
        (modifiers ++ [ModFunc (Py.join ", "
                                  match args with
                                  | Some params => map visit params
                                  | None => []
                                  end)])
        emit_declname
  | Typename _ t => generate_type t [] emit_declname
  | IdentifierType names => Py.join " " names +:+ " "
  | EllipsisParam => "..."
  | Decl _ _ => ""
  end.

End CGenerator.

(** Two prototypes and a global of the kind [public_api.h] declares. *)
Module Sample.

Definition named (ty : string) (nm : string) : Node :=
  Decl (Some nm) (TypeDecl (Some nm) [] (IdentifierType [ty])).

(** [HPy HPyModule_Create(HPyContext ctx, HPyModuleDef *def);] *)
Definition HPyModule_Create : Node :=
  Decl (Some "HPyModule_Create")
    (FuncDecl
       (Some [named "HPyContext" "ctx";
              Decl (Some "def")
                (PtrDecl [] (TypeDecl (Some "def") []
                               (IdentifierType ["HPyModuleDef"])))])
       (TypeDecl (Some "HPyModule_Create") [] (IdentifierType ["HPy"]))).

(** [void HPyErr_Format(HPyContext ctx, const char *fmt, ...);] *)
Definition HPyErr_Format : Node :=
  Decl (Some "HPyErr_Format")
    (FuncDecl
       (Some [named "HPyContext" "ctx";
              Decl (Some "fmt")
                (PtrDecl [] (TypeDecl (Some "fmt") ["const"]
                               (IdentifierType ["char"])));
              EllipsisParam])
       (TypeDecl (Some "HPyErr_Format") [] (IdentifierType ["void"]))).

(** [HPy h_None;] *)
Definition h_None : Node := named "HPy" "h_None".

(** A header with the three of them. *)
Definition public_api : list Node :=
  [h_None; HPyModule_Create; HPyErr_Format].

(** [void name(HPyContext ctx);] *)
Definition prototype (name : string) : Node :=
  Decl (Some name)
    (FuncDecl (Some [named "HPyContext" "ctx"])
       (TypeDecl (Some name) [] (IdentifierType ["void"]))).

(** Two prototypes whose names differ by the underscore after [HPy]. *)
Definition collide : list Node := [prototype "HPy_Close"; prototype "HPyClose"].

(** [void HPy_Log(...);], as a tree: the grammar of C has no such
    parameter list, the classes of pycparser do. *)
Definition HPy_Log : Node :=
  Decl (Some "HPy_Log")
    (FuncDecl (Some [EllipsisParam])
       (TypeDecl (Some "HPy_Log") [] (IdentifierType ["void"]))).

(** [HPy HPy_Dup(HPyContext ctx, HPy);]: the second parameter has no
    name. *)
Definition HPy_Dup : Node :=
  Decl (Some "HPy_Dup")
    (FuncDecl
       (Some [named "HPyContext" "ctx";
              Typename None (TypeDecl None [] (IdentifierType ["HPy"]))])
       (TypeDecl (Some "HPy_Dup") [] (IdentifierType ["HPy"]))).

(** A variadic function [void HPy_Each(HPyContext ctx, cb, ...);] whose
    fixed parameter [cb] is a pointer to a variadic function
    [int (const char *fmt, ...)]. *)
Definition HPy_Each : Node :=
  Decl (Some "HPy_Each")
    (FuncDecl
       (Some [named "HPyContext" "ctx";
              Decl (Some "cb")
                (PtrDecl []
                   (FuncDecl
                      (Some [Decl (Some "fmt")
                               (PtrDecl [] (TypeDecl (Some "fmt") ["const"]
                                              (IdentifierType ["char"])));
                             EllipsisParam])
                      (TypeDecl (Some "cb") [] (IdentifierType ["int"]))));
              EllipsisParam])
       (TypeDecl (Some "HPy_Each") [] (IdentifierType ["void"]))).

(** [HPy *h_table;] *)
Definition h_table : Node :=
  Decl (Some "h_table")
    (PtrDecl [] (TypeDecl (Some "h_table") [] (IdentifierType ["HPy"]))).

(** [const HPy h_flag;] *)
Definition h_flag : Node :=
  Decl (Some "h_flag")
    (TypeDecl (Some "h_flag") ["const"] (IdentifierType ["HPy"])).

End Sample.

(** ** The state of a run

    Standard output (the lines printed so far) and the files on disk, by
    path relative to the root of the repository.  A step of the script
    changes the state and returns a value or raises; what was printed or
    written before an exception stays. *)
Record world : Type := World {
  stdout : list string;
  files : gmap string string
}.

Definition M (A : Type) : Type := world -> world * result A.

#[global] Instance M_ret : MRet M := fun A a w => (w, Ok a).
#[global] Instance M_bind : MBind M := fun A B k m w =>
  match m w with
  | (w', Ok a) => k a w'
  | (w', Raise e) => (w', Raise e)
  end.

(** A computation that does not touch the state. *)
Definition lift {A} (r : result A) : M A := fun w => (w, r).

(** [print(s)] *)
Definition print (s : string) : M unit := fun w =>
  (World (stdout w ++ [s]) (files w), Ok ()).

(** [path.open('w')]: the file is created or truncated. *)
Definition open_w (path : string) : M unit := fun w =>
  (World (stdout w) (<[path := ""]> (files w)), Ok ()).

(** [print(s, file=f)] for the file opened at [path]. *)
Definition print_file (path : string) (s : string) : M unit := fun w =>
  (World (stdout w) (alter (fun c => c +:+ s +:+ Py.nl) path (files w)),
   Ok ()).

(** [for x in l: body(x)] for a body run for its effect. *)
Fixpoint for_each {A} (body : A -> M unit) (l : list A) : M unit :=
  match l with
  | [] => mret ()
  | x :: l' => body x ≫= fun _ => for_each body l'
  end.

(** ** The script *)

Definition DISCLAIMER : string :=
  Py.join Py.nl
    [""; "/*"; "   DO NOT EDIT THIS FILE!"; "";
     "   This file is automatically generated by tools/autogen.py from tools/public_api.h.";
     "   Run this to regenerate:";
     "       make autogen"; ""; "*/"; ""].

(** [toC(node)]: the text pycparser's generator prints for a tree. *)
Class Renderer : Type := toC : Node -> string.

Module Function.

Record t : Type := mk { name : string; node : Node }.

(** [_CTX_NAME = re.compile(r'^_?HPy_?')]: the text that follows the
    match, when the pattern matches at the start of [s].  Both [_?] are
    greedy, and giving the first one up never helps: the text then starts
    with the underscore, not with [HPy]. *)
Definition _CTX_NAME (s : string) : option string :=
  rest ← Py.strip_prefix "HPy" (default s (Py.strip_prefix "_" s));
  Some (default rest (Py.strip_prefix "_" rest)).

Fixpoint _find_typedecl (node : Node) : result Node :=
  match node with
  | TypeDecl _ _ _ => Ok node
  | PtrDecl _ t | FuncDecl _ t | Decl _ t | Typename _ t => _find_typedecl t
  | IdentifierType _ | EllipsisParam => Raise AttributeError
  end.

(** [self._find_typedecl(node).declname = declname]: the tree [node]
    after the assignment through the alias. *)
Fixpoint set_typedecl_declname (node : Node) (declname : string) : Node :=
  match node with
  | TypeDecl _ quals t => TypeDecl (Some declname) quals t
  | PtrDecl quals t => PtrDecl quals (set_typedecl_declname t declname)
  | FuncDecl args t => FuncDecl args (set_typedecl_declname t declname)
  | Decl nm t => Decl nm (set_typedecl_declname t declname)
  | Typename nm t => Typename nm (set_typedecl_declname t declname)
  | IdentifierType _ | EllipsisParam => node
  end.

Definition ctx_name (self : t) : string :=
  match _CTX_NAME (name self) with
  | Some rest => "ctx_" +:+ rest
  | None => name self
  end.

Definition ctx_impl_name (self : t) : string := "&" +:+ ctx_name self.

Definition is_varargs (self : t) : result bool :=
  fn ← c_ast.type (node self);
  params ← c_ast.args_params fn;
  if 0 <? Z.of_nat (length params) then
    last ← Py.index params (-1);
    mret (c_ast.is_EllipsisParam last)
  else mret false.

(** [Decl('_vl', [], [], [], TypeDecl('_vl', [], IdentifierType(['va_list'])), None, None)] *)
Definition va_list_arg : Node :=
  Decl (Some "_vl") (TypeDecl (Some "_vl") [] (IdentifierType ["va_list"])).

Section with_renderer.
Context {R : Renderer}.

Definition ctx_decl (self : t) : result string :=
  let newnode := node self in (* deepcopy(self.node) *)
  fn ← c_ast.type newnode;
  newnode ← c_ast.set_type newnode (PtrDecl [] fn);
  typedecl ← _find_typedecl newnode;
  va ← is_varargs self;
  newnode ← (if va : bool then
               ptr ← c_ast.type newnode;
               fn ← c_ast.type ptr;
               params ← c_ast.args_params fn;
               params ← Py.setitem params (-1) va_list_arg;
               fn ← c_ast.set_args_params fn params;
               ptr ← c_ast.set_type ptr fn;
               c_ast.set_type newnode ptr
             else mret newnode);
  mret (toC (set_typedecl_declname newnode (ctx_name self))).

(** The list [parts] of [trampoline_def] when it is joined. *)
Definition trampoline_parts (self : t) : result (list string) :=
  fn ← c_ast.type (node self);
  ret ← c_ast.type fn;
  let rettype := toC ret in
  let parts := ["static inline"; toC (node self);
                "{" +:+ Py.nl +:+ "    "] in
  va ← is_varargs self;
  parts ← (if negb va then
             let parts :=
               parts ++ [if String.eqb rettype "void"
                         then "ctx->" +:+ ctx_name self
                         else "return ctx->" +:+ ctx_name self] in
             let parts := parts ++ ["("] in
             ps ← c_ast.args_params fn;
             params ← comprehension c_ast.name ps;
             args ← Py.join_opt ", " params;
             mret (parts ++ [args; ");"])
           else
             ps ← c_ast.args_params fn;
             last ← Py.index ps (-2);
             last_param ← c_ast.name last;
             let parts := parts ++ ["va_list _vl;"] in
             let parts :=
               parts ++ ["va_start(_vl, " +:+ Py.str last_param +:+ ");"] in
             let parts :=
               parts ++ [if String.eqb rettype "void"
                         then "ctx->" +:+ ctx_name self
                         else rettype +:+ " _res = ctx->"
                                +:+ ctx_name self] in
             let parts := parts ++ ["("] in
             params ← comprehension c_ast.name (Py.slice_to ps (-1));
             let params := params ++ [Some "_vl"] in
             args ← Py.join_opt ", " params;
             let parts := parts ++ [args; ");"; "va_end(_vl);"] in
             mret (if negb (String.eqb rettype "void")
                   then parts ++ ["return _res;"] else parts));
  mret (parts ++ [Py.nl +:+ "}"]).

Definition trampoline_def (self : t) : result (option string) :=
  parts ← trampoline_parts self;
  mret (Some (Py.join " " parts)).

End with_renderer.

Definition ctx_pypy_type (self : t) : string := "rffi.VOIDP".

(** [repr(self)], as attrs writes it ([node] has [repr=False]). *)
Definition repr (self : t) : string :=
  "Function(name=" +:+ Py.repr (name self) +:+ ")".

End Function.

Module GlobalVar.

Record t : Type := mk { name : string; node : Node }.

Definition ctx_name (self : t) : string := name self.

Definition ctx_impl_name (self : t) : string :=
  "(HPy){CONSTANT_" +:+ Py.upper (name self) +:+ "}".

Definition ctx_decl {R : Renderer} (self : t) : result string :=
  Ok (toC (node self)).

Definition trampoline_def (self : t) : result (option string) := Ok None.

Definition ctx_pypy_type (self : t) : string := "HPy".

Definition repr (self : t) : string :=
  "GlobalVar(name=" +:+ Py.repr (name self) +:+ ")".

End GlobalVar.

(** An element of [declarations]: a [Function] or a [GlobalVar].  The
    generators call the same methods on both. *)
Inductive entry : Type :=
| Func (f : Function.t)
| Var (g : GlobalVar.t).

Definition ctx_name (f : entry) : string :=
  match f with
  | Func f => Function.ctx_name f
  | Var g => GlobalVar.ctx_name g
  end.

Definition ctx_impl_name (f : entry) : string :=
  match f with
  | Func f => Function.ctx_impl_name f
  | Var g => GlobalVar.ctx_impl_name g
  end.

Definition ctx_decl {R : Renderer} (f : entry) : result string :=
  match f with
  | Func f => Function.ctx_decl f
  | Var g => GlobalVar.ctx_decl g
  end.

Definition trampoline_def {R : Renderer} (f : entry) : result (option string) :=
  match f with
  | Func f => Function.trampoline_def f
  | Var g => GlobalVar.trampoline_def g
  end.

Definition ctx_pypy_type (f : entry) : string :=
  match f with
  | Func f => Function.ctx_pypy_type f
  | Var g => GlobalVar.ctx_pypy_type g
  end.

Definition entry_name (f : entry) : string :=
  match f with
  | Func f => Function.name f
  | Var g => GlobalVar.name g
  end.

Definition entry_repr (f : entry) : string :=
  match f with
  | Func f => Function.repr f
  | Var g => GlobalVar.repr g
  end.

Module FuncDeclVisitor.

Record t : Type := mk { declarations : list entry }.

Definition __init__ : t := mk [].

(** [name.startswith(p)] for the [name] of a node, which is a [str] or
    [None]. *)
Definition startswith (name : option string) (p : string) : result bool :=
  match name with
  | Some s => Ok (Py.startswith s p)
  | None => Raise AttributeError
  end.

(** The loop over the parameters of [_visit_function]. *)
Fixpoint check_params (name : string) (params : list Node) : result unit :=
  match params with
  | [] => Ok ()
  | p :: params' =>
      if c_ast.hasattr_name p then
        match c_ast.name p with
        | Ok None =>
            Raise (ValueError
                     ("non-named argument in declaration of " +:+ name))
        | _ => check_params name params'
        end
      else check_params name params'
  end.

Definition _visit_function (self : t) (node : Node) : M t :=
  name ← lift (c_ast.name node);
  ignored ← lift (hpy ← startswith name "HPy";
                  if negb hpy then
                    _hpy ← startswith name "_HPy"; mret (negb _hpy)
                  else mret false);
  let name := default "" name in
  if ignored : bool then
    print ("WARNING: Ignoring non-hpy declaration: " +:+ name) ≫= fun _ =>
    mret self
  else
    fn ← lift (c_ast.type node);
    params ← lift (c_ast.args_params fn);
    _ ← lift (check_params name params);
    mret (mk (declarations self ++ [Func (Function.mk name node)])).

Section with_renderer.
Context {R : Renderer}.

Definition _visit_global_var (self : t) (node : Node) : M t :=
  name ← lift (c_ast.name node);
  h ← lift (startswith name "h_");
  let name := default "" name in
  if negb h then
    print ("WARNING: Ignoring non-hpy variable declaration: " +:+ name)
      ≫= fun _ => mret self
  else
    td ← lift (c_ast.type node);
    ty ← lift (c_ast.type td);
    _ ← lift (if String.eqb (toC ty) "HPy" then Ok ()
              else Raise AssertionError);
    mret (mk (declarations self ++ [Var (GlobalVar.mk name node)])).

Definition visit_Decl (self : t) (node : Node) : M t :=
  ty ← lift (c_ast.type node);
  if c_ast.is_FuncDecl ty then _visit_function self node
  else if c_ast.is_TypeDecl ty then _visit_global_var self node
  else mret self.

(** [NodeVisitor.visit] walks a tree down to its [Decl] nodes and calls
    [visit_Decl] on each, in source order; [visit_Decl] does not walk
    further.  [decl_nodes] lists those nodes. *)
Fixpoint decl_nodes (n : Node) : list Node :=
  match n with
  | Decl _ _ => [n]
  | TypeDecl _ _ t | PtrDecl _ t | Typename _ t => decl_nodes t
  | FuncDecl args t =>
      match args with
      | Some params => flat_map decl_nodes params
      | None => []
      end ++ decl_nodes t
  | IdentifierType _ | EllipsisParam => []
  end.

Fixpoint visit_all (self : t) (nodes : list Node) : M t :=
  match nodes with
  | [] => mret self
  | n :: nodes' => visit_Decl self n ≫= fun self => visit_all self nodes'
  end.

(** [v.visit(ast)] for the top-level nodes [ast] of the file. *)
Definition visit (self : t) (ast : list Node) : M t :=
  visit_all self (flat_map decl_nodes ast).

End with_renderer.

End FuncDeclVisitor.

Module AutoGen.

Record t : Type := mk { ast : list Node; declarations : list entry }.

Section with_renderer.
Context {R : Renderer}.

(** [collect_declarations], called on the tree [ast] that
    [pycparser.parse_file] returned. *)
Definition collect_declarations (ast : list Node) : M (list entry) :=
  v ← FuncDeclVisitor.visit FuncDeclVisitor.__init__ ast;
  mret (FuncDeclVisitor.declarations v).

(** [AutoGen(filename)]; the parser is outside the script, its result
    [ast] is the argument. *)
Definition __init__ (ast : list Node) : M t :=
  declarations ← collect_declarations ast;
  mret (mk ast declarations).

Definition gen_ctx_decl (self : t) : result string :=
  let lines := ["struct _HPyContext_s {"; "    int ctx_version;"] in
  decls ← comprehension
    (fun f => d ← ctx_decl f; mret ("    " +:+ d +:+ ";"))
    (declarations self);
  mret (Py.join Py.nl (lines ++ decls ++ ["};"])).

Definition gen_ctx_def (self : t) : result string :=
  let lines := ["struct _HPyContext_s global_ctx = {";
                "    .ctx_version = 1,"] in
  let defs :=
    map (fun f => "    ." +:+ ctx_name f +:+ " = "
                    +:+ ctx_impl_name f +:+ ",")
        (declarations self) in
  mret (Py.join Py.nl (lines ++ defs ++ ["};"])).

(** The lines one entry adds in [gen_func_trampolines]. *)
Definition trampoline_lines (f : entry) : result (list string) :=
  trampoline ← trampoline_def f;
  mret (match trampoline with
        | Some (String c s) => [String c s; ""]
        | Some EmptyString | None => []
        end).

Definition gen_func_trampolines (self : t) : result string :=
  lines ← comprehension trampoline_lines (declarations self);
  mret (Py.join Py.nl (concat lines)).

Definition gen_pypy_decl (self : t) : result string :=
  let lines := ["HPyContextS = rffi.CStruct('_HPyContext_s',";
                "    ('ctx_version', rffi.INT_real),"] in
  let fields :=
    map (fun f => "    ('" +:+ ctx_name f +:+ "', "
                    +:+ ctx_pypy_type f +:+ "),")
        (declarations self) in
  mret (Py.join Py.nl
          (lines ++ fields ++ ["    hints={'eci': eci},"; ")"])).

End with_renderer.

End AutoGen.

(** The four files [main] writes, relative to [root]. *)
Definition autogen_ctx : string :=
  "hpy-api/hpy_devel/include/universal/autogen_ctx.h".
Definition autogen_func : string :=
  "hpy-api/hpy_devel/include/universal/autogen_func.h".
Definition autogen_ctx_def : string :=
  "cpython-universal/src/autogen_ctx_def.h".
Definition autogen_pypy : string := "tools/autogen_pypy.txt".

Section main.
Context {R : Renderer}.

(** [main()], on the tree [ast] parsed from [tools/public_api.h]. *)
Definition main (ast : list Node) : M unit :=
  autogen ← AutoGen.__init__ ast;
  _ ← for_each (fun func => print (entry_repr func))
        (AutoGen.declarations autogen);
  ctx_decl ← lift (AutoGen.gen_ctx_decl autogen);
  func_trampolines ← lift (AutoGen.gen_func_trampolines autogen);
  ctx_def ← lift (AutoGen.gen_ctx_def autogen);
  pypy_decl ← lift (AutoGen.gen_pypy_decl autogen);
  _ ← open_w autogen_ctx;
  _ ← print_file autogen_ctx DISCLAIMER;
  _ ← print_file autogen_ctx ctx_decl;
  _ ← open_w autogen_func;
  _ ← print_file autogen_func DISCLAIMER;
  _ ← print_file autogen_func func_trampolines;
  _ ← open_w autogen_ctx_def;
  _ ← print_file autogen_ctx_def DISCLAIMER;
  _ ← print_file autogen_ctx_def ctx_def;
  _ ← open_w autogen_pypy;
  print_file autogen_pypy pypy_decl.

End main.

(** The rendering of pycparser, to run the script on a tree. *)
Definition pycparser : Renderer := CGenerator.visit.

Definition empty_world : world := World [] ∅.

(** ** Malformed declarations

    A prototype with the prefix of the API one of whose parameters has no
    name, and a plain variable with the prefix [h_] whose type does not
    print as [HPy].  The visitor compares the text of the type inside the
    [TypeDecl], so the qualifiers of the declaration do not count; a
    variable declared through a pointer is not a [TypeDecl] and is never
    compared. *)
Definition unnamed_parameter (n : Node) : Prop :=
  exists name params ret p,
    n = Decl (Some name) (FuncDecl (Some params) ret)
    /\ (Py.startswith name "HPy" = true \/ Py.startswith name "_HPy" = true)
    /\ p ∈ params
    /\ c_ast.hasattr_name p = true
    /\ c_ast.name p = Ok None.

Definition wrong_constant_type {R : Renderer} (n : Node) : Prop :=
  exists name declname quals ty,
    n = Decl (Some name) (TypeDecl declname quals ty)
    /\ Py.startswith name "h_" = true
    /\ toC ty <> "HPy".

Definition malformed {R : Renderer} (n : Node) : Prop :=
  unnamed_parameter n \/ wrong_constant_type n.

(** ** The outcome of a run *)

(** The files on disk after the four [with ... open('w')] blocks of [main]
    have written the texts [decl], [trampolines], [def] and [pypy]. *)
Definition written_files (decl trampolines def pypy : string)
    (fs : gmap string string) : gmap string string :=
  <[autogen_pypy := pypy +:+ Py.nl]>
    (<[autogen_ctx_def := (DISCLAIMER +:+ Py.nl) +:+ def +:+ Py.nl]>
       (<[autogen_func := (DISCLAIMER +:+ Py.nl) +:+ trampolines +:+ Py.nl]>
          (<[autogen_ctx := (DISCLAIMER +:+ Py.nl) +:+ decl +:+ Py.nl]> fs))).

(** A step that only prints: it appends the same lines to standard output
    and gives the same result whatever the state it starts from. *)
Definition prints_only {A} (m : M A) : Prop :=
  exists out r, forall w, m w = (World (stdout w ++ out) (files w), r).

(** The paths [main] writes to, in the order it writes them. *)
Definition outputs : list string :=
  [autogen_ctx; autogen_func; autogen_ctx_def; autogen_pypy].

(** The four texts a run left on disk, when it ran to its end. *)
Definition artifacts (run : world * result unit)
  : option (list (option string)) :=
  match run.2 with
  | Ok _ => Some (map (fun path => files run.1 !! path) outputs)
  | Raise _ => None
  end.

(** The tree an entry was made from. *)
Definition entry_node (f : entry) : Node :=
  match f with
  | Func f => Function.node f
  | Var g => GlobalVar.node g
  end.

(** The functions among the entries, in the order of the entries. *)
Definition functions (decls : list entry) : list Function.t :=
  omap (fun f => match f with Func fn => Some fn | Var _ => None end) decls.

(** The naming rule in the words of the specification: strip one optional
    leading underscore, strip the prefix token [HPy], put [ctx_] in
    front. *)
Definition spec_slot_name (declared : string) : string :=
  let s := default declared (Py.strip_prefix "_" declared) in
  let s := default s (Py.strip_prefix "HPy" s) in
  "ctx_" +:+ s.

(** ** Accepted names *)

(** The test on the name that [_visit_function] and [_visit_global_var]
    apply before they keep a declaration. *)
Definition accepted_name (f : entry) : Prop :=
  match f with
  | Func f =>
      Py.startswith (Function.name f) "HPy" = true
      \/ Py.startswith (Function.name f) "_HPy" = true
  | Var g => Py.startswith (GlobalVar.name g) "h_" = true
  end.

(** The line of an entry in the initializer of the struct. *)
Definition initializer (f : entry) : string :=
  "    ." +:+ ctx_name f +:+ " = "
    +:+ match f with
        | Func _ => "&" +:+ ctx_name f
        | Var _ => "(HPy){CONSTANT_" +:+ Py.upper (ctx_name f) +:+ "}"
        end
    +:+ ",".

(** ** Kept and ignored declarations *)

(** What the visitor has checked of an entry it keeps. *)
Definition well_formed_entry {R : Renderer} (f : entry) : Prop :=
  match f with
  | Func fn =>
      exists params ret,
        Function.node fn
        = Decl (Some (Function.name fn)) (FuncDecl (Some params) ret)
        /\ Forall (fun p => c_ast.hasattr_name p = true ->
                            exists nm, c_ast.name p = Ok (Some nm)) params
  | Var g =>
      exists declname quals ty,
        GlobalVar.node g
        = Decl (Some (GlobalVar.name g)) (TypeDecl declname quals ty)
        /\ toC ty = "HPy"
  end.

(** A declaration the visitor drops: a prototype whose name has neither
    prefix of the API, a variable whose name does not start with [h_], or
    a declaration that is neither a function nor a plain variable (a
    pointer, say). *)
Definition ignored (n : Node) : Prop :=
  match n with
  | Decl (Some name) (FuncDecl _ _) =>
      Py.startswith name "HPy" = false /\ Py.startswith name "_HPy" = false
  | Decl (Some name) (TypeDecl _ _ _) => Py.startswith name "h_" = false
  | Decl _ ty => c_ast.is_FuncDecl ty = false /\ c_ast.is_TypeDecl ty = false
  | _ => False
  end.

(** * Properties *)

(** ** Python indexing from the end *)
Section indexing.
Context {A : Type}.
Implicit Types (l : list A) (x y v : A).

Lemma index_last l x : Py.index (l ++ [x]) (-1) = Ok x.
Proof.
  unfold Py.index, Py.norm_index. rewrite length_app. simpl.
  replace (-1 + Z.of_nat (length l + 1)) with (Z.of_nat (length l)) by lia.
  destruct (Z.ltb_spec (Z.of_nat (length l)) 0) as [Hneg|_]; [lia|].
  rewrite Nat2Z.id, lookup_app_r, Nat.sub_diag by lia. reflexivity.
Qed.

Lemma index_before_last l x y : Py.index (l ++ [x; y]) (-2) = Ok x.
Proof.
  unfold Py.index, Py.norm_index. rewrite length_app. simpl.
  replace (-2 + Z.of_nat (length l + 2)) with (Z.of_nat (length l)) by lia.
  destruct (Z.ltb_spec (Z.of_nat (length l)) 0) as [Hneg|_]; [lia|].
  rewrite Nat2Z.id, lookup_app_r, Nat.sub_diag by lia. reflexivity.
Qed.

Lemma index_before_last_singleton x :
  Py.index [x] (-2) = Raise IndexError.
Proof. reflexivity. Qed.

Lemma slice_to_last l x : Py.slice_to (l ++ [x]) (-1) = l.
Proof.
  unfold Py.slice_to. rewrite length_app. simpl.
  replace (-1 + Z.of_nat (length l + 1)) with (Z.of_nat (length l)) by lia.
  rewrite Z.max_r, Nat2Z.id by lia. apply take_app_length.
Qed.

Lemma setitem_last l x v : Py.setitem (l ++ [x]) (-1) v = Ok (l ++ [v]).
Proof.
  unfold Py.setitem, Py.norm_index. rewrite length_app. simpl.
  replace (-1 + Z.of_nat (length l + 1)) with (Z.of_nat (length l)) by lia.
  destruct (Z.ltb_spec (Z.of_nat (length l)) 0) as [Hneg|_]; [lia|].
  destruct (Z.leb_spec (Z.of_nat (length l + 1)) (Z.of_nat (length l)))
    as [Hle|_]; [lia|].
  simpl. rewrite Nat2Z.id. f_equal.
  rewrite insert_app_r_alt, Nat.sub_diag by lia. reflexivity.
Qed.

End indexing.

(** ** List comprehensions *)

Lemma comprehension_Ok {A B} (body : A -> result B) (f : A -> B) l :
  Forall (fun x => body x = Ok (f x)) l ->
  comprehension body l = Ok (map f l).
Proof.
  induction 1 as [|x l Hx _ IH]; simpl; [reflexivity|].
  rewrite Hx. simpl. rewrite IH. reflexivity.
Qed.

Lemma comprehension_then {A B C} (body : A -> result B) (g : B -> C) l :
  comprehension (fun x => y ← body x; mret (g y)) l
  = (ys ← comprehension body l; mret (map g ys)).
Proof.
  induction l as [|x l IH]; simpl; [reflexivity|].
  destruct (body x) as [y|e]; simpl; [|reflexivity].
  rewrite IH. destruct (comprehension body l); reflexivity.
Qed.

Lemma comprehension_Forall2 {A B} (body : A -> result B) l : forall ys,
  comprehension body l = Ok ys <-> Forall2 (fun x y => body x = Ok y) l ys.
Proof.
  induction l as [|x l IH]; intros ys; simpl.
  - split.
    + intros [= <-]. constructor.
    + intros Hys. inversion Hys. reflexivity.
  - split.
    + destruct (body x) as [y|e] eqn:Hx; simpl; [|discriminate].
      destruct (comprehension body l) as [ys'|e] eqn:Hl; simpl;
        [|discriminate].
      intros [= <-]. constructor; [exact Hx|]. apply IH. reflexivity.
    + intros Hys. inversion Hys as [|x' y l' ys' Hx Hl]; subst.
      rewrite Hx. simpl. apply IH in Hl. rewrite Hl. reflexivity.
Qed.

Lemma comprehension_length {A B} (body : A -> result B) l ys :
  comprehension body l = Ok ys -> length ys = length l.
Proof.
  intros Hys. apply comprehension_Forall2 in Hys.
  symmetry. exact (Forall2_length _ _ _ Hys).
Qed.

Lemma comprehension_names (params : list Node) (names : list string) :
  Forall2 (fun p nm => c_ast.name p = Ok (Some nm)) params names ->
  comprehension c_ast.name params = Ok (map Some names).
Proof.
  induction 1 as [|p nm params names Hp _ IH]; simpl; [reflexivity|].
  rewrite Hp. simpl. rewrite IH. reflexivity.
Qed.

Lemma join_opt_Some sep (names : list string) :
  Py.join_opt sep (map Some names) = Ok (Py.join sep names).
Proof.
  unfold Py.join_opt.
  rewrite (comprehension_Ok _ (fun p => default "" p)).
  - simpl. rewrite map_map, map_id. reflexivity.
  - induction names; constructor; auto.
Qed.

(** ** Variadic functions *)

#[local] Arguments Function.is_varargs : simpl never.

Lemma is_varargs_ellipsis name dn fixed ret :
  Function.is_varargs
    (Function.mk name (Decl dn (FuncDecl (Some (fixed ++ [EllipsisParam])) ret)))
  = Ok true.
Proof.
  unfold Function.is_varargs. simpl.
  rewrite length_app. simpl.
  destruct (Z.ltb_spec 0 (Z.of_nat (length fixed + 1))) as [_|Hle]; [|lia].
  rewrite index_last. reflexivity.
Qed.

Lemma named_params_last (fixed : list Node) (names : list string) last_name :
  Forall2 (fun p nm => c_ast.name p = Ok (Some nm)) fixed names ->
  last names = Some last_name ->
  exists fixed' p, fixed = fixed' ++ [p] /\ c_ast.name p = Ok (Some last_name).
Proof.
  intros Hnamed Hlast.
  apply last_Some in Hlast as [names' ->].
  apply Forall2_app_inv_r in Hnamed as (fixed' & l2 & _ & Hl2 & ->).
  inversion Hl2 as [|p nm l2' k2' Hp Hrest]; subst.
  inversion Hrest; subst.
  exists fixed', p. split; [reflexivity|exact Hp].
Qed.

Lemma is_varargs_named name dn params names ret :
  Forall2 (fun p nm => c_ast.name p = Ok (Some nm)) params names ->
  Function.is_varargs
    (Function.mk name (Decl dn (FuncDecl (Some params) ret)))
  = Ok false.
Proof.
  intros Hnamed. unfold Function.is_varargs. simpl.
  destruct (Z.ltb_spec 0 (Z.of_nat (length params))) as [Hlen|_];
    [|reflexivity].
  destruct (last params) as [p|] eqn:Hlast.
  - apply last_Some in Hlast as [params' ->].
    rewrite index_last. simpl.
    apply Forall2_app_inv_l in Hnamed as (n1 & n2 & _ & Hp & _).
    inversion Hp as [|p' nm l1 l2 Hname _]; subst.
    destruct p; try reflexivity. discriminate Hname.
  - apply last_None in Hlast. subst params. simpl in Hlen. lia.
Qed.

Section trampolines.
Context {R : Renderer}.

(** The trampoline of a function without ellipsis, all of whose parameters
    have names: one call of the slot with the names in order, returned
    unless the return type prints as [void]. *)
Lemma plain_trampoline (name : string) (dn : option string) (ret : Node)
    (params : list Node) (names : list string) :
  Forall2 (fun p nm => c_ast.name p = Ok (Some nm)) params names ->
  let node := Decl dn (FuncDecl (Some params) ret) in
  let self := Function.mk name node in
  Function.trampoline_parts self
  = Ok ["static inline"; toC node; "{" +:+ Py.nl +:+ "    ";
        if String.eqb (toC ret) "void"
        then "ctx->" +:+ Function.ctx_name self
        else "return ctx->" +:+ Function.ctx_name self;
        "("; Py.join ", " names; ");"; Py.nl +:+ "}"].
Proof.
  intros Hnamed node self.
  unfold Function.trampoline_parts, self, node. simpl.
  rewrite (is_varargs_named _ _ _ _ _ Hnamed). simpl.
  rewrite (comprehension_names _ _ Hnamed). simpl.
  rewrite join_opt_Some. reflexivity.
Qed.

(** C1.  A function whose parameters are N named parameters followed by
    the ellipsis (N at least one, so that there is a last named
    parameter) gets a trampoline that declares [_vl], starts it with
    [va_start] on the name of the last named parameter, calls the slot of
    the context with N+1 arguments (the N names in order, then [_vl]),
    ends it with [va_end] on the only path out, and returns the result of
    the call; when the return type prints as [void] the call is a bare
    statement and nothing is returned, as in the trampoline of a function
    without ellipsis. *)
Theorem variadic_trampoline (name : string) (dn : option string)
    (ret : Node) (fixed : list Node) (names : list string)
    (last_name : string) :
  Forall2 (fun p nm => c_ast.name p = Ok (Some nm)) fixed names ->
  last names = Some last_name ->
  let node := Decl dn (FuncDecl (Some (fixed ++ [EllipsisParam])) ret) in
  let self := Function.mk name node in
  let rettype := toC ret in
  let void := String.eqb rettype "void" in
  let args := names ++ ["_vl"] in
  let parts :=
    ["static inline"; toC node; "{" +:+ Py.nl +:+ "    ";
     "va_list _vl;";
     "va_start(_vl, " +:+ last_name +:+ ");";
     if void then "ctx->" +:+ Function.ctx_name self
     else rettype +:+ " _res = ctx->" +:+ Function.ctx_name self;
     "("; Py.join ", " args; ");";
     "va_end(_vl);"]
    ++ (if void then [] else ["return _res;"])
    ++ [Py.nl +:+ "}"] in
  length args = S (length fixed)
  /\ Function.trampoline_parts self = Ok parts
  /\ Function.trampoline_def self = Ok (Some (Py.join " " parts)).
Proof.
  intros Hnamed Hlast node self rettype void args parts.
  assert (Hparts : Function.trampoline_parts self = Ok parts).
  { destruct (named_params_last _ _ _ Hnamed Hlast)
      as (fixed' & p & Hfixed & Hp).
    unfold Function.trampoline_parts, self, node. simpl.
    rewrite is_varargs_ellipsis. simpl.
    rewrite Hfixed at 1. rewrite <- app_assoc. simpl.
    rewrite index_before_last. simpl. rewrite Hp. simpl.
    rewrite slice_to_last, (comprehension_names _ _ Hnamed). simpl.
    replace (map Some names ++ [Some "_vl"])
      with (map Some (names ++ ["_vl"])) by (rewrite map_app; reflexivity).
    rewrite join_opt_Some. simpl.
    unfold parts, void, rettype, args, self, node.
    destruct (String.eqb (toC ret) "void"); reflexivity. }
  split; [|split].
  - unfold args. rewrite length_app. simpl.
    apply Forall2_length in Hnamed. lia.
  - exact Hparts.
  - unfold Function.trampoline_def. rewrite Hparts. reflexivity.
Qed.

Lemma named_is_not_ellipsis (fixed : list Node) (names : list string) :
  Forall2 (fun p nm => c_ast.name p = Ok (Some nm)) fixed names ->
  EllipsisParam ∉ fixed.
Proof.
  induction 1 as [|p nm fixed names Hp _ IH]; intros Hin.
  - inversion Hin.
  - apply elem_of_cons in Hin as [<-|Hin]; [discriminate Hp|exact (IH Hin)].
Qed.

Lemma variadic_trampoline_head (name : string) (dn : option string)
    (ret : Node) (fixed : list Node) (names : list string) :
  Forall2 (fun p nm => c_ast.name p = Ok (Some nm)) fixed names ->
  fixed <> [] ->
  let node := Decl dn (FuncDecl (Some (fixed ++ [EllipsisParam])) ret) in
  exists rest,
    Function.trampoline_parts (Function.mk name node)
    = Ok ("static inline" :: toC node :: rest).
Proof.
  intros Hnamed Hfixed node.
  destruct (last names) as [last_name|] eqn:Hlast.
  2:{ apply last_None in Hlast. subst names. inversion Hnamed. congruence. }
  destruct (named_params_last _ _ _ Hnamed Hlast)
    as (fixed' & p & Hfixed' & Hp).
  assert (Hidx : Py.index (fixed ++ [EllipsisParam]) (-2) = Ok p).
  { rewrite Hfixed', <- app_assoc. apply index_before_last. }
  assert (Hargs : Py.join_opt ", " (map Some names ++ [Some "_vl"])
                  = Ok (Py.join ", " (names ++ ["_vl"]))).
  { replace (map Some names ++ [Some "_vl"])
      with (map Some (names ++ ["_vl"])) by (rewrite map_app; reflexivity).
    apply join_opt_Some. }
  destruct (String.eqb (toC ret) "void") eqn:Hvoid; eexists;
    unfold Function.trampoline_parts, node; simpl;
    rewrite is_varargs_ellipsis; simpl;
    rewrite Hidx; simpl; rewrite Hp; simpl;
    rewrite slice_to_last, (comprehension_names _ _ Hnamed); simpl;
    rewrite Hargs, Hvoid; reflexivity.
Qed.

(** C3, as the code has it.  For a function whose parameters are named
    parameters followed by the ellipsis, the field printed in the
    declaration of the struct is the text of the declaration turned into a
    pointer to function, renamed to the slot, whose parameter list is the
    fixed parameters followed by the single parameter [va_list _vl] in
    place of the ellipsis: no ellipsis is left among the parameters of the
    slot itself.  The fixed parameters are printed with their types as
    they are, so an ellipsis inside the type of one of them stays.  When
    there is at least one fixed parameter the trampoline is generated, and
    it is headed by the text of the unchanged declaration, which keeps the
    ellipsis. *)
Theorem variadic_ctx_decl (name : string) (dn : option string)
    (ret : Node) (fixed : list Node) (names : list string) :
  is_Ok (Function._find_typedecl ret) = true ->
  Forall2 (fun p nm => c_ast.name p = Ok (Some nm)) fixed names ->
  let node := Decl dn (FuncDecl (Some (fixed ++ [EllipsisParam])) ret) in
  let self := Function.mk name node in
  let slot_params := fixed ++ [Function.va_list_arg] in
  Function.ctx_decl self
  = Ok (toC (Decl dn
               (PtrDecl []
                  (FuncDecl (Some slot_params)
                     (Function.set_typedecl_declname ret
                        (Function.ctx_name self))))))
  /\ last slot_params = Some Function.va_list_arg
  /\ length slot_params = length (fixed ++ [EllipsisParam])
  /\ (EllipsisParam ∉ slot_params)
  /\ (fixed <> [] ->
      exists rest,
        Function.trampoline_parts self
        = Ok ("static inline" :: toC node :: rest)
        /\ Function.trampoline_def self
           = Ok (Some (Py.join " " ("static inline" :: toC node :: rest)))).
Proof.
  intros Hret Hnamed node self slot_params.
  split; [|split; [|split; [|split]]].
  - unfold Function.ctx_decl, self, node. simpl.
    destruct (Function._find_typedecl ret) as [td|e] eqn:Htd;
      [|discriminate Hret].
    simpl. rewrite is_varargs_ellipsis. simpl.
    rewrite setitem_last. reflexivity.
  - unfold slot_params. apply last_snoc.
  - unfold slot_params. rewrite !length_app. reflexivity.
  - unfold slot_params. intros Hin.
    apply elem_of_app in Hin as [Hin|Hin];
      [exact (named_is_not_ellipsis _ _ Hnamed Hin)|].
    apply list_elem_of_singleton in Hin. discriminate Hin.
  - intros Hfixed.
    destruct (variadic_trampoline_head name dn ret fixed names Hnamed Hfixed)
      as [rest Hparts].
    exists rest. split; [exact Hparts|].
    unfold Function.trampoline_def, self, node. rewrite Hparts. reflexivity.
Qed.

(** C10, as the code has it.  When the ellipsis is the only parameter,
    the index [-2] into the one-element parameter list is out of range:
    [trampoline_def] raises [IndexError] before it reads the name of any
    parameter, and no trampoline is produced.  A trampoline of a variadic
    function therefore needs a parameter before the ellipsis. *)
Theorem ellipsis_only_trampoline (name : string) (dn : option string)
    (ret : Node) :
  Function.trampoline_def
    (Function.mk name (Decl dn (FuncDecl (Some [EllipsisParam]) ret)))
  = Raise IndexError.
Proof.
  (* [is_varargs] is true, then [params[-2]] is looked up at position
     [-2 + 1 < 0] *)
  assert (Hidx : Py.index [EllipsisParam] (-2) = Raise IndexError)
    by apply index_before_last_singleton.
  unfold Function.trampoline_def, Function.trampoline_parts.
  cbn -[Py.index]. rewrite Hidx. reflexivity.
Qed.

End trampolines.

(** ** Classification *)

Ltac unfold_M :=
  unfold mbind, mret, M_bind, M_ret, lift, print, open_w, print_file in *.

Section classification.
Context {R : Renderer}.

Lemma _visit_function_files self n w :
  files (FuncDeclVisitor._visit_function self n w).1 = files w.
Proof.
  unfold FuncDeclVisitor._visit_function. unfold_M.
  repeat (case_match; simpl in *; simplify_eq; try reflexivity).
Qed.

Lemma _visit_global_var_files self n w :
  files (FuncDeclVisitor._visit_global_var self n w).1 = files w.
Proof.
  unfold FuncDeclVisitor._visit_global_var. unfold_M.
  repeat (case_match; simpl in *; simplify_eq; try reflexivity).
Qed.

Lemma visit_Decl_files self n w :
  files (FuncDeclVisitor.visit_Decl self n w).1 = files w.
Proof.
  unfold FuncDeclVisitor.visit_Decl. unfold_M.
  destruct (c_ast.type n) as [ty|e]; simpl; [|reflexivity].
  destruct (c_ast.is_FuncDecl ty); [apply _visit_function_files|].
  destruct (c_ast.is_TypeDecl ty); [apply _visit_global_var_files|].
  reflexivity.
Qed.

Lemma visit_all_files nodes : forall self w,
  files (FuncDeclVisitor.visit_all self nodes w).1 = files w.
Proof.
  induction nodes as [|n nodes IH]; intros self w; simpl; [reflexivity|].
  unfold_M. pose proof (visit_Decl_files self n w) as Hn.
  destruct (FuncDeclVisitor.visit_Decl self n w) as [w1 [self1|e]];
    simpl in *; [|exact Hn].
  rewrite IH. exact Hn.
Qed.

Lemma collect_declarations_files ast w :
  files (AutoGen.collect_declarations ast w).1 = files w.
Proof.
  unfold AutoGen.collect_declarations, FuncDeclVisitor.visit. unfold_M.
  pose proof (visit_all_files (flat_map FuncDeclVisitor.decl_nodes ast)
                FuncDeclVisitor.__init__ w) as Hv.
  destruct (FuncDeclVisitor.visit_all _ _ w) as [w1 [v|e]]; exact Hv.
Qed.

Lemma visit_Decl_appends self n w w' self' :
  FuncDeclVisitor.visit_Decl self n w = (w', Ok self') ->
  exists kept,
    FuncDeclVisitor.declarations self'
    = FuncDeclVisitor.declarations self ++ kept
    /\ sublist (map entry_node kept) [n]
    /\ Forall accepted_name kept.
Proof.
  unfold FuncDeclVisitor.visit_Decl, FuncDeclVisitor._visit_function,
    FuncDeclVisitor._visit_global_var.
  unfold_M. intros Hvisit.
  assert (Hnone : exists kept,
             FuncDeclVisitor.declarations self
             = FuncDeclVisitor.declarations self ++ kept
             /\ sublist (map entry_node kept) [n]
             /\ Forall accepted_name kept).
  { exists []. rewrite app_nil_r. repeat split.
    - apply sublist_nil_l.
    - constructor. }
  destruct (c_ast.type n) as [ty|e]; simpl in Hvisit; [|discriminate].
  destruct (c_ast.is_FuncDecl ty).
  - destruct (c_ast.name n) as [[name|]|e]; simpl in Hvisit;
      try discriminate.
    destruct (Py.startswith name "HPy") eqn:Hhpy; simpl in Hvisit.
    + destruct (c_ast.args_params ty) as [params|e]; simpl in Hvisit;
        [|discriminate].
      destruct (FuncDeclVisitor.check_params name params);
        simpl in Hvisit; [|discriminate].
      injection Hvisit as _ <-. simpl.
      exists [Func (Function.mk name n)]. repeat split.
      * reflexivity.
      * constructor; [simpl; auto|constructor].
    + destruct (Py.startswith name "_HPy") eqn:H_hpy; simpl in Hvisit.
      * destruct (c_ast.args_params ty) as [params|e]; simpl in Hvisit;
          [|discriminate].
        destruct (FuncDeclVisitor.check_params name params);
          simpl in Hvisit; [|discriminate].
        injection Hvisit as _ <-. simpl.
        exists [Func (Function.mk name n)]. repeat split.
        -- reflexivity.
        -- constructor; [simpl; auto|constructor].
      * injection Hvisit as _ <-. exact Hnone.
  - destruct (c_ast.is_TypeDecl ty); [|injection Hvisit as _ <-; exact Hnone].
    destruct (c_ast.name n) as [[name|]|e]; simpl in Hvisit;
      try discriminate.
    destruct (Py.startswith name "h_") eqn:Hh; simpl in Hvisit.
    + destruct (c_ast.type ty) as [inner|e]; simpl in Hvisit;
        [|discriminate].
      destruct (String.eqb (toC inner) "HPy"); simpl in Hvisit;
        [|discriminate].
      injection Hvisit as _ <-. simpl.
      exists [Var (GlobalVar.mk name n)]. repeat split.
      * reflexivity.
      * constructor; [exact Hh|constructor].
    + injection Hvisit as _ <-. exact Hnone.
Qed.

Lemma visit_all_appends nodes : forall self w w' self',
  FuncDeclVisitor.visit_all self nodes w = (w', Ok self') ->
  exists kept,
    FuncDeclVisitor.declarations self'
    = FuncDeclVisitor.declarations self ++ kept
    /\ sublist (map entry_node kept) nodes
    /\ Forall accepted_name kept.
Proof.
  induction nodes as [|n nodes IH]; intros self w w' self' Hvisit.
  - simpl in Hvisit. unfold_M. injection Hvisit as _ <-.
    exists []. rewrite app_nil_r. repeat split; constructor.
  - simpl in Hvisit. unfold_M.
    destruct (FuncDeclVisitor.visit_Decl self n w) as [w1 [self1|e]]
      eqn:Hn; [|discriminate].
    destruct (visit_Decl_appends _ _ _ _ _ Hn) as (k1 & Hk1 & Hs1 & Ha1).
    destruct (IH _ _ _ _ Hvisit) as (k2 & Hk2 & Hs2 & Ha2).
    exists (k1 ++ k2). split; [|split].
    + rewrite Hk2, Hk1, app_assoc. reflexivity.
    + rewrite map_app. change (n :: nodes) with ([n] ++ nodes).
      apply sublist_app; assumption.
    + apply Forall_app. split; assumption.
Qed.

(** The entries are made from declarations of the tree, taken in the
    order of the tree, and each passed the test on its name. *)
Lemma collect_declarations_order ast w w' decls :
  AutoGen.collect_declarations ast w = (w', Ok decls) ->
  sublist (map entry_node decls) (flat_map FuncDeclVisitor.decl_nodes ast)
  /\ Forall accepted_name decls.
Proof.
  unfold AutoGen.collect_declarations, FuncDeclVisitor.visit. unfold_M.
  destruct (FuncDeclVisitor.visit_all _ _ w) as [w1 [v|e]] eqn:Hvisit;
    [|discriminate].
  intros [= _ <-].
  destruct (visit_all_appends _ _ _ _ _ Hvisit) as (kept & Hk & Hs & Ha).
  simpl in Hk. rewrite Hk. split; assumption.
Qed.

Lemma check_params_unnamed name params p :
  p ∈ params -> c_ast.hasattr_name p = true -> c_ast.name p = Ok None ->
  FuncDeclVisitor.check_params name params
  = Raise (ValueError ("non-named argument in declaration of " +:+ name)).
Proof.
  intros Hin Hattr Hname.
  induction params as [|q params IH]; [inversion Hin|].
  simpl. apply elem_of_cons in Hin as [<-|Hin].
  - rewrite Hattr, Hname. reflexivity.
  - destruct (c_ast.hasattr_name q); [|exact (IH Hin)].
    destruct (c_ast.name q) as [[nm|]|e]; try exact (IH Hin). reflexivity.
Qed.

Lemma visit_Decl_malformed self n w :
  malformed n -> exists e, FuncDeclVisitor.visit_Decl self n w = (w, Raise e).
Proof.
  intros [(name & params & ret & p & -> & Hpre & Hin & Hattr & Hname)
         |(name & declname & quals & ty & -> & Hpre & Hty)].
  - exists (ValueError ("non-named argument in declaration of " +:+ name)).
    unfold FuncDeclVisitor.visit_Decl, FuncDeclVisitor._visit_function.
    unfold_M. simpl.
    assert (Hign : (if negb (Py.startswith name "HPy")
                    then Ok (negb (Py.startswith name "_HPy"))
                    else Ok false) = Ok false).
    { destruct Hpre as [-> | ->]; simpl; [reflexivity|].
      destruct (Py.startswith name "HPy"); reflexivity. }
    destruct (Py.startswith name "HPy"); simpl in *.
    + rewrite (check_params_unnamed name params p Hin Hattr Hname).
      reflexivity.
    + injection Hign as Hign. apply negb_false_iff in Hign.
      rewrite Hign. simpl.
      rewrite (check_params_unnamed name params p Hin Hattr Hname).
      reflexivity.
  - exists AssertionError.
    unfold FuncDeclVisitor.visit_Decl, FuncDeclVisitor._visit_global_var.
    unfold_M. simpl. rewrite Hpre. simpl.
    destruct (String.eqb_spec (toC ty) "HPy") as [Heq|_];
      [contradiction|reflexivity].
Qed.

Lemma visit_all_malformed nodes n :
  n ∈ nodes -> malformed n ->
  forall self w, exists w' e,
    FuncDeclVisitor.visit_all self nodes w = (w', Raise e).
Proof.
  intros Hin Hbad.
  induction nodes as [|m nodes IH]; [inversion Hin|].
  intros self w. simpl. unfold_M.
  apply elem_of_cons in Hin as [<-|Hin].
  - destruct (visit_Decl_malformed self n w Hbad) as [e ->]. eauto.
  - destruct (FuncDeclVisitor.visit_Decl self m w) as [w1 [self1|e]];
      [apply (IH Hin)|eauto].
Qed.

(** C7, as the code has it.  When the tree holds a malformed declaration
    (a prototype of the API with a parameter without a name, or a plain
    [h_] variable whose type, qualifiers aside, does not print as [HPy]),
    the construction of [AutoGen] raises while it collects the
    declarations; [main] stops there with that exception, before any
    generator runs, and the files on disk are as they were. *)
Theorem malformed_declaration_is_fatal (ast : list Node) (n : Node)
    (w : world) :
  n ∈ flat_map FuncDeclVisitor.decl_nodes ast ->
  malformed n ->
  exists w' e,
    AutoGen.__init__ ast w = (w', Raise e)
    /\ main ast w = (w', Raise e)
    /\ files w' = files w.
Proof.
  intros Hin Hbad.
  destruct (visit_all_malformed _ n Hin Hbad FuncDeclVisitor.__init__ w)
    as (w' & e & Hvisit).
  assert (Hinit : AutoGen.__init__ ast w = (w', Raise e)).
  { unfold AutoGen.__init__, AutoGen.collect_declarations,
      FuncDeclVisitor.visit. unfold_M. rewrite Hvisit. reflexivity. }
  exists w', e. split; [exact Hinit|split].
  - unfold main. unfold_M. rewrite Hinit. reflexivity.
  - pose proof (visit_all_files (flat_map FuncDeclVisitor.decl_nodes ast)
                  FuncDeclVisitor.__init__ w) as Hfiles.
    rewrite Hvisit in Hfiles. exact Hfiles.
Qed.

End classification.

(** ** Text *)

Lemma append_assoc (a b c : string) : (a +:+ b) +:+ c = a +:+ b +:+ c.
Proof.
  induction a as [|x a IH]; [reflexivity|].
  change (String x ((a +:+ b) +:+ c) = String x (a +:+ b +:+ c)).
  rewrite IH. reflexivity.
Qed.

Lemma startswith_append (p s : string) : Py.startswith (p +:+ s) p = true.
Proof.
  unfold Py.startswith. induction p as [|x p IH]; [destruct s; reflexivity|].
  change (String.prefix (String x p) (String x (p +:+ s)) = true).
  simpl. destruct (ascii_dec x x) as [_|Hne]; [exact IH|contradiction].
Qed.

Lemma strip_prefix_spec (p s : string) :
  match Py.strip_prefix p s with
  | Some rest => s = p +:+ rest
  | None => Py.startswith s p = false
  end.
Proof.
  unfold Py.startswith. revert s.
  induction p as [|a p IH]; intros s; [reflexivity|].
  destruct s as [|b s]; [reflexivity|]. simpl.
  destruct (Ascii.eqb_spec a b) as [<-|Hne].
  - specialize (IH s). destruct (Py.strip_prefix p s) as [rest|].
    + rewrite IH. reflexivity.
    + destruct (ascii_dec a a); [exact IH|reflexivity].
  - destruct (ascii_dec a b); [contradiction|reflexivity].
Qed.

Lemma prefix_cons (a b : ascii) (p s : string) :
  String.prefix (String a p) (String b s)
  = if ascii_dec a b then String.prefix p s else false.
Proof. reflexivity. Qed.

(** ** Slot names *)

#[local] Arguments Py.strip_prefix : simpl never.

(** C5, as the code has it.  The field of a kept function is named by
    removing from the declared name an optional leading underscore, the
    token [HPy] and an optional underscore after it, and putting [ctx_] in
    front of the rest; the field of a kept global carries the declared name
    unchanged. *)
Theorem slot_name_rule (f : entry) :
  accepted_name f ->
  match f with
  | Func fn =>
      exists lead mid rest,
        Function.name fn = lead +:+ "HPy" +:+ mid +:+ rest
        /\ (lead = "" \/ lead = "_")
        /\ (mid = "_" \/ (mid = "" /\ Py.startswith rest "_" = false))
        /\ ctx_name f = "ctx_" +:+ rest
  | Var g => ctx_name f = GlobalVar.name g
  end.
Proof.
  destruct f as [[name node]|g]; [|reflexivity].
  simpl. unfold Function.ctx_name, Function._CTX_NAME. simpl.
  intros Hname.
  pose proof (strip_prefix_spec "_" name) as Hlead.
  destruct (Py.strip_prefix "_" name) as [r1|]; simpl.
  - pose proof (strip_prefix_spec "HPy" r1) as Htoken.
    destruct (Py.strip_prefix "HPy" r1) as [r2|]; simpl.
    + pose proof (strip_prefix_spec "_" r2) as Hmid.
      destruct (Py.strip_prefix "_" r2) as [r3|]; simpl.
      * exists "_", "_", r3. subst. repeat split; auto.
      * exists "_", "", r2. subst. repeat split; auto.
    + exfalso. subst name. unfold Py.startswith in *.
      change ("_" +:+ r1) with (String "_" r1) in Hname.
      simpl in Hname. rewrite Htoken in Hname.
      destruct Hname as [Hname|Hname]; discriminate Hname.
  - pose proof (strip_prefix_spec "HPy" name) as Htoken.
    destruct (Py.strip_prefix "HPy" name) as [r2|]; simpl.
    + pose proof (strip_prefix_spec "_" r2) as Hmid.
      destruct (Py.strip_prefix "_" r2) as [r3|]; simpl.
      * exists "", "_", r3. subst. repeat split; auto.
      * exists "", "", r2. subst. repeat split; auto.
    + exfalso. destruct Hname as [Hname|Hname]; [congruence|].
      unfold Py.startswith in *. destruct name as [|c name]; [discriminate|].
      rewrite prefix_cons in Hname, Hlead.
      destruct (ascii_dec "_" c); [|discriminate Hname].
      destruct name; discriminate Hlead.
Qed.

(** ** The initializer *)

Lemma gen_ctx_def_text {R : Renderer} (ast : list Node) (decls : list entry) :
  AutoGen.gen_ctx_def (AutoGen.mk ast decls)
  = Ok (Py.join Py.nl
          (["struct _HPyContext_s global_ctx = {"; "    .ctx_version = 1,"]
             ++ map initializer decls ++ ["};"])).
Proof.
  unfold AutoGen.gen_ctx_def. cbn [AutoGen.declarations].
  replace (map initializer decls)
    with (map (fun f => "    ." +:+ ctx_name f +:+ " = "
                          +:+ ctx_impl_name f +:+ ",") decls)
    by (apply map_ext; intros [fn|g]; reflexivity).
  reflexivity.
Qed.

(** C6, as the code has it.  The initializer opens with the version set to
    [1] and then has one line for each entry, in the order of the entries,
    which is the order of the fields of the declaration of the struct: a
    function slot is set to the address of the function named like the slot
    ([&ctx_...]), a global slot to [(HPy){CONSTANT_...}] with the name of
    the slot in upper case. *)
Theorem initializer_lines {R : Renderer} (ast : list Node)
    (decls : list entry) :
  AutoGen.gen_ctx_def (AutoGen.mk ast decls)
  = Ok (Py.join Py.nl
          (["struct _HPyContext_s global_ctx = {"; "    .ctx_version = 1,"]
             ++ map initializer decls ++ ["};"]))
  /\ length (map initializer decls) = length decls
  /\ forall fields, comprehension ctx_decl decls = Ok fields ->
      length fields = length decls
      /\ AutoGen.gen_ctx_decl (AutoGen.mk ast decls)
         = Ok (Py.join Py.nl
                 (["struct _HPyContext_s {"; "    int ctx_version;"]
                    ++ map (fun d => "    " +:+ d +:+ ";") fields ++ ["};"])).
Proof.
  split; [|split].
  - apply gen_ctx_def_text.
  - apply length_map.
  - intros fields Hfields. split.
    + apply (comprehension_length _ _ _ Hfields).
    + unfold AutoGen.gen_ctx_decl. cbn [AutoGen.declarations].
      rewrite comprehension_then, Hfields. reflexivity.
Qed.

(** ** Steps that only print *)

Lemma prints_only_mret {A} (a : A) : prints_only (mret a).
Proof.
  exists [], (Ok a). intros [out fs]. unfold_M. simpl.
  rewrite app_nil_r. reflexivity.
Qed.

Lemma prints_only_lift {A} (r : result A) : prints_only (lift r).
Proof.
  exists [], r. intros [out fs]. unfold_M. simpl.
  rewrite app_nil_r. reflexivity.
Qed.

Lemma prints_only_print s : prints_only (print s).
Proof. exists [s], (Ok ()). intros w. reflexivity. Qed.

Lemma prints_only_bind {A B} (m : M A) (k : A -> M B) :
  prints_only m -> (forall a, prints_only (k a)) -> prints_only (m ≫= k).
Proof.
  intros (out1 & [a|e] & Hm) Hk.
  - destruct (Hk a) as (out2 & r2 & Hka).
    exists (out1 ++ out2), r2. intros w. unfold_M.
    rewrite Hm, Hka. simpl. rewrite app_assoc. reflexivity.
  - exists out1, (Raise e). intros w. unfold_M. rewrite Hm. reflexivity.
Qed.

Lemma prints_only_if {A} (b : bool) (m1 m2 : M A) :
  prints_only m1 -> prints_only m2 -> prints_only (if b then m1 else m2).
Proof. destruct b; auto. Qed.

Create HintDb prints discriminated.
#[local] Hint Resolve prints_only_mret prints_only_lift prints_only_print
  prints_only_if : prints.
#[local] Hint Extern 2 (prints_only (mbind _ _)) =>
  apply prints_only_bind; [|intros ?] : prints.

Section runs.
Context {R : Renderer}.

Lemma prints_only_visit_Decl self n :
  prints_only (FuncDeclVisitor.visit_Decl self n).
Proof.
  unfold FuncDeclVisitor.visit_Decl, FuncDeclVisitor._visit_function,
    FuncDeclVisitor._visit_global_var.
  auto 20 with prints.
Qed.

Lemma prints_only_visit_all nodes : forall self,
  prints_only (FuncDeclVisitor.visit_all self nodes).
Proof.
  induction nodes as [|n nodes IH]; intros self; simpl.
  - apply prints_only_mret.
  - apply prints_only_bind; [apply prints_only_visit_Decl|exact IH].
Qed.

Lemma for_each_print {A} (f : A -> string) (l : list A) : forall w,
  for_each (fun x => print (f x)) l w
  = (World (stdout w ++ map f l) (files w), Ok ()).
Proof.
  induction l as [|x l IH]; intros [out fs]; simpl; unfold_M; simpl.
  - rewrite app_nil_r. reflexivity.
  - unfold_M. rewrite IH. simpl. rewrite <- app_assoc. reflexivity.
Qed.

Lemma write_block (path a b : string) (fs : gmap string string) :
  alter (fun c => c +:+ b +:+ Py.nl) path
    (alter (fun c => c +:+ a +:+ Py.nl) path (<[path := ""]> fs))
  = <[path := (a +:+ Py.nl) +:+ b +:+ Py.nl]> fs.
Proof. rewrite !alter_insert_eq. reflexivity. Qed.

(** What a run does, whatever the state it starts in: either it raises
    and leaves the files alone, or the declarations were collected, the
    four texts generated, and the four files written. *)
Lemma main_outcome (ast : list Node) :
  exists out,
    (exists e, forall w,
        main ast w = (World (stdout w ++ out) (files w), Raise e))
    \/ (exists decls decl trampolines def pypy,
         (forall w, (AutoGen.collect_declarations ast w).2 = Ok decls)
         /\ AutoGen.gen_ctx_decl (AutoGen.mk ast decls) = Ok decl
         /\ AutoGen.gen_func_trampolines (AutoGen.mk ast decls)
            = Ok trampolines
         /\ AutoGen.gen_ctx_def (AutoGen.mk ast decls) = Ok def
         /\ AutoGen.gen_pypy_decl (AutoGen.mk ast decls) = Ok pypy
         /\ forall w,
             main ast w
             = (World (stdout w ++ out)
                  (written_files decl trampolines def pypy (files w)),
                Ok ())).
Proof.
  destruct (prints_only_visit_all (flat_map FuncDeclVisitor.decl_nodes ast)
              FuncDeclVisitor.__init__) as (out1 & r1 & Hvisit).
  destruct r1 as [v|e].
  - set (decls := FuncDeclVisitor.declarations v).
    assert (Hcollect : forall w,
               AutoGen.collect_declarations ast w
               = (World (stdout w ++ out1) (files w), Ok decls)).
    { intros w. unfold AutoGen.collect_declarations, FuncDeclVisitor.visit.
      unfold_M. rewrite Hvisit. reflexivity. }
    exists (out1 ++ map entry_repr decls).
    destruct (AutoGen.gen_ctx_decl (AutoGen.mk ast decls))
      as [decl|e] eqn:Hdecl.
    + destruct (AutoGen.gen_func_trampolines (AutoGen.mk ast decls))
        as [trampolines|e] eqn:Htramp.
      * right.
        destruct (AutoGen.gen_ctx_def (AutoGen.mk ast decls))
          as [def|e] eqn:Hdef; [|discriminate Hdef].
        destruct (AutoGen.gen_pypy_decl (AutoGen.mk ast decls))
          as [pypy|e] eqn:Hpypy; [|discriminate Hpypy].
        exists decls, decl, trampolines, def, pypy.
        split; [intros w; rewrite Hcollect; reflexivity|].
        do 4 (split; [assumption|]).
        intros w. unfold main, AutoGen.__init__.
        unfold mbind, mret, M_bind, M_ret, lift.
        rewrite Hcollect, for_each_print.
        cbn [AutoGen.declarations stdout files].
        rewrite Hdecl, Htramp, Hdef, Hpypy.
        unfold open_w, print_file. cbn [stdout files].
        rewrite !write_block, !alter_insert_eq, <- app_assoc.
        reflexivity.
      * left. exists e. intros w. unfold main, AutoGen.__init__.
        unfold mbind, mret, M_bind, M_ret, lift.
        rewrite Hcollect, for_each_print.
        cbn [AutoGen.declarations stdout files].
        rewrite Hdecl, Htramp, <- app_assoc. reflexivity.
    + left. exists e. intros w. unfold main, AutoGen.__init__.
      unfold mbind, mret, M_bind, M_ret, lift.
      rewrite Hcollect, for_each_print.
      cbn [AutoGen.declarations stdout files].
      rewrite Hdecl, <- app_assoc. reflexivity.
  - exists out1. left. exists e. intros w.
    unfold main, AutoGen.__init__, AutoGen.collect_declarations,
      FuncDeclVisitor.visit.
    unfold_M. rewrite Hvisit. reflexivity.
Qed.

Lemma lookup_written_files decl trampolines def pypy fs path :
  written_files decl trampolines def pypy fs !! path
  = if decide (autogen_pypy = path) then Some (pypy +:+ Py.nl)
    else if decide (autogen_ctx_def = path)
      then Some ((DISCLAIMER +:+ Py.nl) +:+ def +:+ Py.nl)
    else if decide (autogen_func = path)
      then Some ((DISCLAIMER +:+ Py.nl) +:+ trampolines +:+ Py.nl)
    else if decide (autogen_ctx = path)
      then Some ((DISCLAIMER +:+ Py.nl) +:+ decl +:+ Py.nl)
    else fs !! path.
Proof. unfold written_files. rewrite !lookup_insert. reflexivity. Qed.

Lemma written_files_outputs decl trampolines def pypy fs1 fs2 :
  map (fun path => written_files decl trampolines def pypy fs1 !! path)
    outputs
  = map (fun path => written_files decl trampolines def pypy fs2 !! path)
      outputs.
Proof.
  unfold outputs. simpl. rewrite !lookup_written_files. reflexivity.
Qed.

Lemma written_files_twice decl trampolines def pypy fs :
  written_files decl trampolines def pypy
    (written_files decl trampolines def pypy fs)
  = written_files decl trampolines def pypy fs.
Proof.
  apply map_eq. intros path. rewrite !lookup_written_files.
  repeat case_decide; reflexivity.
Qed.

(** C9.  The outcome of a run is a function of the tree: from any two
    states [main] gives the same result and, when it runs to its end,
    the same four texts; running it again on the state it left changes
    no file. *)
Theorem regeneration_is_deterministic (ast : list Node) (w1 w2 : world) :
  (main ast w1).2 = (main ast w2).2
  /\ artifacts (main ast w1) = artifacts (main ast w2)
  /\ files (main ast (main ast w1).1).1 = files (main ast w1).1.
Proof.
  destruct (main_outcome ast)
    as (out & [(e & Hmain)
              |(decls & decl & tr & def & pypy & _ & _ & _ & _ & _ & Hmain)]).
  - unfold artifacts. rewrite !Hmain. simpl. auto.
  - unfold artifacts. rewrite !Hmain. simpl.
    split; [reflexivity|split].
    + f_equal. apply written_files_outputs.
    + apply written_files_twice.
Qed.

(** C8, as the code has it.  After a run that ran to its end, each of the
    three C headers (declaration of the struct, trampolines, initializer)
    begins with [DISCLAIMER]; the description for PyPy is written without
    it and begins with its own first line. *)
Theorem disclaimer_heads_the_C_files (ast : list Node) (w w' : world) :
  main ast w = (w', Ok ()) ->
  (forall path, path ∈ [autogen_ctx; autogen_func; autogen_ctx_def] ->
     exists text, files w' !! path = Some text
                  /\ Py.startswith text DISCLAIMER = true)
  /\ (exists text, files w' !! autogen_pypy = Some text
        /\ Py.startswith text "HPyContextS = rffi.CStruct(" = true
        /\ Py.startswith text DISCLAIMER = false).
Proof.
  intros Hrun.
  destruct (main_outcome ast)
    as (out & [(e & Hmain)
              |(decls & decl & tr & def & pypy & _ & _ & _ & _ & Hpypy
                & Hmain)]);
    rewrite Hmain in Hrun; [discriminate Hrun|].
  injection Hrun as <-. simpl. split.
  - intros path Hpath. rewrite lookup_written_files.
    repeat (apply elem_of_cons in Hpath as [->|Hpath]);
      [| | |inversion Hpath];
      repeat case_decide; try discriminate; try contradiction;
      eexists; (split; [reflexivity|]);
      rewrite append_assoc; apply startswith_append.
  - rewrite lookup_written_files. case_decide; [|contradiction].
    eexists. split; [reflexivity|].
    unfold AutoGen.gen_pypy_decl in Hpypy. injection Hpypy as <-.
    split; reflexivity.
Qed.

Lemma trampoline_parts_head fn parts :
  Function.trampoline_parts fn = Ok parts ->
  exists rest, parts = "static inline" :: toC (Function.node fn) :: rest.
Proof.
  unfold Function.trampoline_parts.
  destruct (c_ast.type (Function.node fn)) as [ty|e]; simpl; [|discriminate].
  destruct (c_ast.type ty) as [ret|e]; simpl; [|discriminate].
  destruct (Function.is_varargs fn) as [[|]|e]; simpl; [| |discriminate].
  - destruct (c_ast.args_params ty) as [ps|e]; simpl; [|discriminate].
    destruct (Py.index ps (-2)) as [p|e]; simpl; [|discriminate].
    destruct (c_ast.name p) as [nm|e]; simpl; [|discriminate].
    destruct (comprehension c_ast.name _) as [nms|e]; simpl; [|discriminate].
    destruct (Py.join_opt _ _) as [args|e]; simpl; [|discriminate].
    intros [= <-].
    destruct (String.eqb (toC ret) "void"); eexists; reflexivity.
  - destruct (c_ast.args_params ty) as [ps|e]; simpl; [|discriminate].
    destruct (comprehension c_ast.name ps) as [nms|e]; simpl;
      [|discriminate].
    destruct (Py.join_opt _ _) as [args|e]; simpl; [|discriminate].
    intros [= <-]. eexists; reflexivity.
Qed.

Lemma trampoline_lines_Func fn lines :
  AutoGen.trampoline_lines (Func fn) = Ok lines ->
  exists text,
    Function.trampoline_def fn = Ok (Some text) /\ lines = [text; ""].
Proof.
  unfold AutoGen.trampoline_lines, trampoline_def, Function.trampoline_def.
  destruct (Function.trampoline_parts fn) as [parts|e] eqn:Hparts; simpl;
    [|discriminate].
  destruct (trampoline_parts_head fn parts Hparts) as [rest ->].
  intros [= <-]. eexists. split; reflexivity.
Qed.

Lemma trampoline_blocks decls : forall lines,
  Forall2 (fun f l => AutoGen.trampoline_lines f = Ok l) decls lines ->
  exists texts,
    Forall2 (fun fn text => Function.trampoline_def fn = Ok (Some text))
      (functions decls) texts
    /\ concat lines = flat_map (fun text => [text; ""]) texts.
Proof.
  induction decls as [|f decls IH]; intros lines Hlines;
    inversion Hlines as [|f' l decls' lines' Hf Hrest]; subst.
  - exists []. split; constructor.
  - destruct (IH _ Hrest) as (texts & Htexts & Hconcat).
    destruct f as [fn|g].
    + destruct (trampoline_lines_Func fn l Hf) as (text & Hdef & ->).
      exists (text :: texts). split.
      * unfold functions. simpl. constructor; assumption.
      * simpl. rewrite Hconcat. reflexivity.
    + injection Hf as <-. exists texts. split; assumption.
Qed.

(** C4, as the code has it.  After a run that ran to its end, the entries
    are declarations of the tree in the order of the tree; the
    declaration of the struct, its initializer and the description for
    PyPy each open with the version field and then have one line for each
    entry, in that order; the file of trampolines has one trampoline,
    followed by an empty line, for each function among the entries, in
    that order, and nothing for a global. *)
Theorem artifacts_keep_declaration_order (ast : list Node)
    (w w' : world) :
  main ast w = (w', Ok ()) ->
  exists decls fields texts,
    (AutoGen.collect_declarations ast w).2 = Ok decls
    /\ sublist (map entry_node decls)
         (flat_map FuncDeclVisitor.decl_nodes ast)
    /\ Forall2 (fun f d => ctx_decl f = Ok d) decls fields
    /\ Forall2 (fun fn text => Function.trampoline_def fn = Ok (Some text))
         (functions decls) texts
    /\ files w' !! autogen_ctx
       = Some ((DISCLAIMER +:+ Py.nl)
                 +:+ Py.join Py.nl
                       (["struct _HPyContext_s {"; "    int ctx_version;"]
                          ++ map (fun d => "    " +:+ d +:+ ";") fields
                          ++ ["};"])
                 +:+ Py.nl)
    /\ files w' !! autogen_ctx_def
       = Some ((DISCLAIMER +:+ Py.nl)
                 +:+ Py.join Py.nl
                       (["struct _HPyContext_s global_ctx = {";
                         "    .ctx_version = 1,"]
                          ++ map initializer decls ++ ["};"])
                 +:+ Py.nl)
    /\ files w' !! autogen_pypy
       = Some (Py.join Py.nl
                 (["HPyContextS = rffi.CStruct('_HPyContext_s',";
                   "    ('ctx_version', rffi.INT_real),"]
                    ++ map (fun f => "    ('" +:+ ctx_name f +:+ "', "
                                       +:+ ctx_pypy_type f +:+ "),") decls
                    ++ ["    hints={'eci': eci},"; ")"])
                 +:+ Py.nl)
    /\ files w' !! autogen_func
       = Some ((DISCLAIMER +:+ Py.nl)
                 +:+ Py.join Py.nl (flat_map (fun text => [text; ""]) texts)
                 +:+ Py.nl).
Proof.
  intros Hrun.
  destruct (main_outcome ast)
    as (out & [(e & Hmain)
              |(decls & decl & tr & def & pypy & Hcollect & Hdecl & Htr
                & Hdef & Hpypy & Hmain)]);
    rewrite Hmain in Hrun; [discriminate Hrun|].
  injection Hrun as <-.
  unfold AutoGen.gen_ctx_decl in Hdecl. cbn [AutoGen.declarations] in Hdecl.
  rewrite comprehension_then in Hdecl.
  destruct (comprehension ctx_decl decls) as [fields|e] eqn:Hfields;
    [|discriminate Hdecl].
  injection Hdecl as <-.
  unfold AutoGen.gen_func_trampolines in Htr.
  cbn [AutoGen.declarations] in Htr.
  destruct (comprehension AutoGen.trampoline_lines decls) as [lines|e]
    eqn:Hlines; [|discriminate Htr].
  injection Htr as <-.
  apply comprehension_Forall2 in Hfields, Hlines.
  destruct (trampoline_blocks decls lines Hlines) as (texts & Htexts & ->).
  rewrite gen_ctx_def_text in Hdef. injection Hdef as <-.
  unfold AutoGen.gen_pypy_decl in Hpypy. injection Hpypy as <-.
  exists decls, fields, texts.
  split; [apply Hcollect|].
  split.
  { specialize (Hcollect w).
    destruct (AutoGen.collect_declarations ast w) as [w1 r] eqn:Hc.
    simpl in Hcollect. subst r.
    apply (collect_declarations_order _ _ _ _ Hc). }
  split; [exact Hfields|]. split; [exact Htexts|].
  cbn [files]. rewrite !lookup_written_files.
  repeat split; repeat case_decide; try discriminate; try contradiction;
    reflexivity.
Qed.

Lemma main_Ok ast w w1 decls decl trampolines :
  AutoGen.collect_declarations ast w = (w1, Ok decls) ->
  AutoGen.gen_ctx_decl (AutoGen.mk ast decls) = Ok decl ->
  AutoGen.gen_func_trampolines (AutoGen.mk ast decls) = Ok trampolines ->
  main ast w
  = (World (stdout w1 ++ map entry_repr decls)
       (written_files decl trampolines
          (Py.join Py.nl
             (["struct _HPyContext_s global_ctx = {";
               "    .ctx_version = 1,"]
                ++ map initializer decls ++ ["};"]))
          (Py.join Py.nl
             (["HPyContextS = rffi.CStruct('_HPyContext_s',";
               "    ('ctx_version', rffi.INT_real),"]
                ++ map (fun f => "    ('" +:+ ctx_name f +:+ "', "
                                   +:+ ctx_pypy_type f +:+ "),") decls
                ++ ["    hints={'eci': eci},"; ")"]))
          (files w)),
     Ok ()).
Proof.
  intros Hcollect Hdecl Htramp.
  pose proof (collect_declarations_files ast w) as Hfiles.
  rewrite Hcollect in Hfiles. simpl in Hfiles.
  unfold main, AutoGen.__init__.
  unfold mbind, mret, M_bind, M_ret, lift.
  rewrite Hcollect, for_each_print.
  cbn [AutoGen.declarations stdout files].
  rewrite Hdecl, Htramp, gen_ctx_def_text.
  unfold AutoGen.gen_pypy_decl, open_w, print_file.
  cbn [AutoGen.declarations stdout files mret result_ret].
  rewrite !write_block, !alter_insert_eq, Hfiles. reflexivity.
Qed.

(** C2, as the code has it.  The script never compares slot names.  When
    two kept declarations with different names get the same slot name,
    and every field and trampoline can be generated, the run goes to its
    end: the four files are written, and the slot names of the entries,
    one line each in the initializer, hold the shared name twice. *)
Theorem slot_collision_goes_unnoticed (ast : list Node) (w w1 : world)
    (decls : list entry) (i j : nat) (f g : entry) :
  AutoGen.collect_declarations ast w = (w1, Ok decls) ->
  decls !! i = Some f -> decls !! j = Some g -> i <> j ->
  entry_name f <> entry_name g ->
  ctx_name f = ctx_name g ->
  is_Ok (AutoGen.gen_ctx_decl (AutoGen.mk ast decls)) = true ->
  is_Ok (AutoGen.gen_func_trampolines (AutoGen.mk ast decls)) = true ->
  exists w',
    main ast w = (w', Ok ())
    /\ Forall (fun path => is_Some (files w' !! path)) outputs
    /\ ~ NoDup (map ctx_name decls)
    /\ files w' !! autogen_ctx_def
       = Some ((DISCLAIMER +:+ Py.nl)
                 +:+ Py.join Py.nl
                       (["struct _HPyContext_s global_ctx = {";
                         "    .ctx_version = 1,"]
                          ++ map initializer decls ++ ["};"])
                 +:+ Py.nl).
Proof.
  intros Hcollect Hi Hj Hij _ Hslot Hdecl Htramp.
  destruct (AutoGen.gen_ctx_decl (AutoGen.mk ast decls)) as [decl|e]
    eqn:Hd; [|discriminate Hdecl].
  destruct (AutoGen.gen_func_trampolines (AutoGen.mk ast decls))
    as [tr|e] eqn:Ht; [|discriminate Htramp].
  eexists. split; [exact (main_Ok _ _ _ _ _ _ Hcollect Hd Ht)|].
  cbn [files]. split; [|split].
  - unfold outputs.
    repeat (apply Forall_cons_2;
            [rewrite lookup_written_files; repeat case_decide;
             try contradiction; try discriminate; eauto|]).
    apply Forall_nil_2.
  - change (map ctx_name decls) with (ctx_name <$> decls).
    intros Hnodup. apply Hij.
    apply (proj1 (NoDup_alt _) Hnodup i j (ctx_name f)).
    + rewrite list_lookup_fmap, Hi. reflexivity.
    + rewrite list_lookup_fmap, Hj, Hslot. reflexivity.
  - rewrite lookup_written_files.
    repeat case_decide; try discriminate; try contradiction; reflexivity.
Qed.

End runs.

(** * Further properties of the script *)

(** ** The visitor, declaration by declaration *)

Section visitor.
Context {R : Renderer}.

(** X1.  A prototype whose name starts neither with [HPy] nor with [_HPy]
    is dropped with one warning line on standard output: no entry is
    added, no file changes and nothing is raised, whatever its parameters
    are (none at all, or some without a name). *)
Theorem non_hpy_function_is_ignored (self : FuncDeclVisitor.t)
    (name : string) (args : option (list Node)) (ret : Node) (w : world) :
  Py.startswith name "HPy" = false ->
  Py.startswith name "_HPy" = false ->
  FuncDeclVisitor.visit_Decl self (Decl (Some name) (FuncDecl args ret)) w
  = (World (stdout w ++ ["WARNING: Ignoring non-hpy declaration: " +:+ name])
       (files w),
     Ok self).
Proof.
  intros Hhpy H_hpy.
  unfold FuncDeclVisitor.visit_Decl, FuncDeclVisitor._visit_function.
  unfold_M. simpl. rewrite Hhpy. simpl. rewrite H_hpy. reflexivity.
Qed.

(** X2.  A plain variable whose name does not start with [h_] is dropped
    with one warning line; its type is not looked at, so a type other than
    [HPy] is no error there. *)
Theorem non_hpy_variable_is_ignored (self : FuncDeclVisitor.t)
    (name : string) (declname : option string) (quals : list string)
    (ty : Node) (w : world) :
  Py.startswith name "h_" = false ->
  FuncDeclVisitor.visit_Decl self
    (Decl (Some name) (TypeDecl declname quals ty)) w
  = (World
       (stdout w
          ++ ["WARNING: Ignoring non-hpy variable declaration: " +:+ name])
       (files w),
     Ok self).
Proof.
  intros Hh.
  unfold FuncDeclVisitor.visit_Decl, FuncDeclVisitor._visit_global_var.
  unfold_M. simpl. rewrite Hh. reflexivity.
Qed.

(** X3.  A declaration whose type is neither a function nor a plain
    variable (a pointer such as [HPy *h_table;], whatever its name) is
    skipped in silence: no entry, no warning, no exception. *)
Theorem other_declaration_is_skipped (self : FuncDeclVisitor.t)
    (name : option string) (ty : Node) (w : world) :
  c_ast.is_FuncDecl ty = false ->
  c_ast.is_TypeDecl ty = false ->
  FuncDeclVisitor.visit_Decl self (Decl name ty) w = (w, Ok self).
Proof.
  intros Hfn Htd. unfold FuncDeclVisitor.visit_Decl. unfold_M. simpl.
  rewrite Hfn, Htd. reflexivity.
Qed.

(** X4.  A prototype of the API written with an empty pair of parentheses
    has no parameter list to walk: the visitor raises [AttributeError] on
    it, without a warning. *)
Theorem empty_parentheses_are_fatal (self : FuncDeclVisitor.t)
    (name : string) (ret : Node) (w : world) :
  Py.startswith name "HPy" = true \/ Py.startswith name "_HPy" = true ->
  FuncDeclVisitor.visit_Decl self (Decl (Some name) (FuncDecl None ret)) w
  = (w, Raise AttributeError).
Proof.
  intros Hname.
  unfold FuncDeclVisitor.visit_Decl, FuncDeclVisitor._visit_function.
  unfold_M. simpl.
  destruct (Py.startswith name "HPy") eqn:Hhpy; simpl; [reflexivity|].
  destruct Hname as [Hname|Hname]; [discriminate Hname|].
  rewrite Hname. reflexivity.
Qed.

Lemma check_params_Ok name params :
  FuncDeclVisitor.check_params name params = Ok () ->
  Forall (fun p => c_ast.hasattr_name p = true ->
                   exists nm, c_ast.name p = Ok (Some nm)) params.
Proof.
  induction params as [|p params IH]; simpl; intros Hcheck; [constructor|].
  destruct (c_ast.hasattr_name p) eqn:Hattr.
  - destruct (c_ast.name p) as [[nm|]|e] eqn:Hname; try discriminate Hcheck.
    + constructor; [eauto|exact (IH Hcheck)].
    + destruct p; simpl in *; congruence.
  - constructor; [intros Hp; congruence|exact (IH Hcheck)].
Qed.

(** What [visit_Decl] does with a declaration, whatever the visitor and
    the state it is called with: the same lines are printed, and either
    the same exception is raised or the same entries are appended. *)
Lemma visit_Decl_frame nm ty :
  exists out (r : result (list entry)),
    (forall kept, r = Ok kept -> Forall well_formed_entry kept)
    /\ (ignored (Decl nm ty) -> r = Ok [])
    /\ forall self w,
        FuncDeclVisitor.visit_Decl self (Decl nm ty) w
        = (World (stdout w ++ out) (files w),
           kept ← r;
           Ok (FuncDeclVisitor.mk (FuncDeclVisitor.declarations self ++ kept))).
Proof.
  assert (Hsilent : forall (r : result (list entry)),
             (forall self w,
                 FuncDeclVisitor.visit_Decl self (Decl nm ty) w
                 = (w, kept ← r;
                       Ok (FuncDeclVisitor.mk
                             (FuncDeclVisitor.declarations self ++ kept)))) ->
             forall self w,
               FuncDeclVisitor.visit_Decl self (Decl nm ty) w
               = (World (stdout w ++ []) (files w),
                  kept ← r;
                  Ok (FuncDeclVisitor.mk
                        (FuncDeclVisitor.declarations self ++ kept)))).
  { intros r Hr self [out fs]. rewrite Hr. simpl. rewrite app_nil_r.
    reflexivity. }
  destruct ty as [names|declname quals inner|pquals pty|args ret|dnm dty
                 |tnm tty|].
  - (* IdentifierType *)
    exists [], (Ok []). split; [|split].
    + intros kept [= <-]. constructor.
    + reflexivity.
    + apply Hsilent. intros [decls] w. cbn. rewrite app_nil_r. reflexivity.
  - (* TypeDecl: a plain variable *)
    destruct nm as [name|].
    2:{ exists [], (Raise AttributeError). split; [|split].
        - intros kept [=].
        - intros [_ [=]].
        - apply Hsilent. reflexivity. }
    destruct (Py.startswith name "h_") eqn:Hh.
    2:{ exists ["WARNING: Ignoring non-hpy variable declaration: "
                  +:+ name], (Ok []).
        split; [|split].
        - intros kept [= <-]. constructor.
        - reflexivity.
        - intros [decls] w.
          unfold FuncDeclVisitor.visit_Decl,
            FuncDeclVisitor._visit_global_var.
          unfold_M. cbn. rewrite Hh. cbn. rewrite app_nil_r. reflexivity. }
    destruct (String.eqb (toC inner) "HPy") eqn:Hty.
    + exists [],
        (Ok [Var (GlobalVar.mk name
                    (Decl (Some name) (TypeDecl declname quals inner)))]).
      split; [|split].
      * intros kept [= <-]. constructor; [|constructor].
        exists declname, quals, inner. split; [reflexivity|].
        apply String.eqb_eq. exact Hty.
      * intros Hign. cbn in Hign. congruence.
      * apply Hsilent. intros self w.
        unfold FuncDeclVisitor.visit_Decl,
          FuncDeclVisitor._visit_global_var.
        unfold_M. cbn. rewrite Hh. cbn. rewrite Hty. reflexivity.
    + exists [], (Raise AssertionError). split; [|split].
      * intros kept [=].
      * intros Hign. cbn in Hign. congruence.
      * apply Hsilent. intros self w.
        unfold FuncDeclVisitor.visit_Decl,
          FuncDeclVisitor._visit_global_var.
        unfold_M. cbn. rewrite Hh. cbn. rewrite Hty. reflexivity.
  - (* PtrDecl *)
    exists [], (Ok []). split; [|split].
    + intros kept [= <-]. constructor.
    + reflexivity.
    + apply Hsilent. intros [decls] w. cbn. rewrite app_nil_r. reflexivity.
  - (* FuncDecl: a prototype *)
    destruct nm as [name|].
    2:{ exists [], (Raise AttributeError). split; [|split].
        - intros kept [=].
        - intros [[=] _].
        - apply Hsilent. reflexivity. }
    assert (Hkeep :
              Py.startswith name "HPy" = true
              \/ Py.startswith name "_HPy" = true ->
              forall self w,
                FuncDeclVisitor.visit_Decl self
                  (Decl (Some name) (FuncDecl args ret)) w
                = (w,
                   params ← c_ast.args_params (FuncDecl args ret);
                   _ ← FuncDeclVisitor.check_params name params;
                   Ok (FuncDeclVisitor.mk
                         (FuncDeclVisitor.declarations self
                            ++ [Func (Function.mk name
                                        (Decl (Some name)
                                           (FuncDecl args ret)))])))).
    { intros Hname self w.
      unfold FuncDeclVisitor.visit_Decl, FuncDeclVisitor._visit_function.
      unfold_M. cbn.
      destruct (Py.startswith name "HPy") eqn:Hhpy; cbn.
      - destruct args as [params|]; cbn; [|reflexivity].
        destruct (FuncDeclVisitor.check_params name params) as [[]|e];
          reflexivity.
      - destruct Hname as [Hname|Hname]; [discriminate Hname|].
        rewrite Hname. cbn.
        destruct args as [params|]; cbn; [|reflexivity].
        destruct (FuncDeclVisitor.check_params name params) as [[]|e];
          reflexivity. }
    destruct (Py.startswith name "HPy") eqn:Hhpy;
      [|destruct (Py.startswith name "_HPy") eqn:H_hpy].
    3:{ exists ["WARNING: Ignoring non-hpy declaration: " +:+ name], (Ok []).
        split; [|split].
        - intros kept [= <-]. constructor.
        - reflexivity.
        - intros [decls] w.
          unfold FuncDeclVisitor.visit_Decl, FuncDeclVisitor._visit_function.
          unfold_M. cbn. rewrite Hhpy. cbn. rewrite H_hpy. cbn.
          rewrite app_nil_r. reflexivity. }
    all: specialize (Hkeep ltac:(auto));
      destruct args as [params|];
      [destruct (FuncDeclVisitor.check_params name params) as [[]|e]
         eqn:Hcheck|].
    all: try (eexists [], (Raise _); split; [|split];
              [intros kept [=]
              |intros Hign; cbn in Hign; destruct Hign; congruence
              |apply Hsilent; intros self w; rewrite Hkeep; cbn;
               rewrite ?Hcheck; reflexivity]).
    all: exists [],
           (Ok [Func (Function.mk name
                        (Decl (Some name) (FuncDecl (Some params) ret)))]);
      (split; [|split]);
      [intros kept [= <-]; constructor; [|constructor];
       exists params, ret; split;
         [reflexivity|exact (check_params_Ok _ _ Hcheck)]
      |intros Hign; cbn in Hign; destruct Hign; congruence
      |apply Hsilent; intros self w; rewrite Hkeep; cbn;
       rewrite Hcheck; reflexivity].
  - (* Decl *)
    exists [], (Ok []). split; [|split].
    + intros kept [= <-]. constructor.
    + reflexivity.
    + apply Hsilent. intros [decls] w. cbn. rewrite app_nil_r. reflexivity.
  - (* Typename *)
    exists [], (Ok []). split; [|split].
    + intros kept [= <-]. constructor.
    + reflexivity.
    + apply Hsilent. intros [decls] w. cbn. rewrite app_nil_r. reflexivity.
  - (* EllipsisParam *)
    exists [], (Ok []). split; [|split].
    + intros kept [= <-]. constructor.
    + reflexivity.
    + apply Hsilent. intros [decls] w. cbn. rewrite app_nil_r. reflexivity.
Qed.

Lemma decl_nodes_Decl : forall n,
  Forall (fun x => c_ast.is_Decl x = true) (FuncDeclVisitor.decl_nodes n).
Proof.
  fix IH 1. intros [names|declname quals t|quals t|args t|nm t|nm t|]; simpl.
  - constructor.
  - apply IH.
  - apply IH.
  - apply Forall_app. split; [|apply IH].
    destruct args as [params|]; [|constructor].
    induction params as [|p params IHparams]; simpl; [constructor|].
    apply Forall_app. split; [apply IH|exact IHparams].
  - constructor; [reflexivity|constructor].
  - apply IH.
  - constructor.
Qed.

Lemma flat_map_decl_nodes_Decl ast :
  Forall (fun x => c_ast.is_Decl x = true)
    (flat_map FuncDeclVisitor.decl_nodes ast).
Proof.
  induction ast as [|n ast IH]; simpl; [constructor|].
  apply Forall_app. split; [apply decl_nodes_Decl|exact IH].
Qed.

(** The frame of a walk over declarations: the lines printed and the
    entries appended (or the exception) depend on the declarations only. *)
Lemma visit_all_frame nodes :
  Forall (fun x => c_ast.is_Decl x = true) nodes ->
  exists out (r : result (list entry)),
    (forall kept, r = Ok kept -> Forall well_formed_entry kept)
    /\ forall self w,
        FuncDeclVisitor.visit_all self nodes w
        = (World (stdout w ++ out) (files w),
           kept ← r;
           Ok (FuncDeclVisitor.mk (FuncDeclVisitor.declarations self ++ kept))).
Proof.
  induction 1 as [|n nodes Hn _ IH].
  - exists [], (Ok []). split.
    + intros kept [= <-]. constructor.
    + intros [decls] [out fs]. cbn. rewrite !app_nil_r. reflexivity.
  - destruct n as [| | | |nm ty| |]; try discriminate Hn.
    destruct (visit_Decl_frame nm ty) as (out1 & r1 & Hwf1 & _ & Hstep).
    destruct IH as (out2 & r2 & Hwf2 & Hrest).
    destruct r1 as [k1|e1].
    + destruct r2 as [k2|e2].
      * exists (out1 ++ out2), (Ok (k1 ++ k2)). split.
        -- intros kept [= <-]. apply Forall_app. split; auto.
        -- intros self w. cbn. unfold_M. rewrite Hstep. cbn.
           rewrite Hrest. cbn. rewrite !app_assoc. reflexivity.
      * exists (out1 ++ out2), (Raise e2). split; [intros kept [=]|].
        intros self w. cbn. unfold_M. rewrite Hstep. cbn.
        rewrite Hrest. cbn. rewrite !app_assoc. reflexivity.
    + exists out1, (Raise e1). split; [intros kept [=]|].
      intros self w. cbn. unfold_M. rewrite Hstep. reflexivity.
Qed.

Lemma visit_all_app nodes1 nodes2 : forall self w,
  FuncDeclVisitor.visit_all self (nodes1 ++ nodes2) w
  = match FuncDeclVisitor.visit_all self nodes1 w with
    | (w1, Ok self1) => FuncDeclVisitor.visit_all self1 nodes2 w1
    | (w1, Raise e) => (w1, Raise e)
    end.
Proof.
  induction nodes1 as [|n nodes1 IH]; intros self w; [reflexivity|].
  cbn. unfold_M.
  destruct (FuncDeclVisitor.visit_Decl self n w) as [w1 [self1|e]];
    [apply IH|reflexivity].
Qed.

(** The frame of [collect_declarations]. *)
Lemma collect_declarations_frame ast :
  exists out (r : result (list entry)),
    (forall decls, r = Ok decls -> Forall well_formed_entry decls)
    /\ forall w,
        AutoGen.collect_declarations ast w
        = (World (stdout w ++ out) (files w), r).
Proof.
  destruct (visit_all_frame _ (flat_map_decl_nodes_Decl ast))
    as (out & r & Hwf & Hvisit).
  exists out, r. split; [exact Hwf|].
  intros w. unfold AutoGen.collect_declarations, FuncDeclVisitor.visit.
  unfold_M. rewrite Hvisit. destruct r; reflexivity.
Qed.

(** X5.  Every entry the visitor keeps has been checked: a function comes
    from a declaration of its own name with a parameter list in which
    every parameter that can carry a name has one; a global comes from a
    plain variable of its own name whose type prints as [HPy]. *)
Theorem kept_entries_are_well_formed (ast : list Node) (w w' : world)
    (decls : list entry) :
  AutoGen.collect_declarations ast w = (w', Ok decls) ->
  Forall well_formed_entry decls.
Proof.
  intros Hcollect.
  destruct (collect_declarations_frame ast) as (out & r & Hwf & Hframe).
  rewrite Hframe in Hcollect. injection Hcollect as _ ->.
  apply Hwf. reflexivity.
Qed.

(** X6.  Collecting the declarations of two trees put one after the other
    is collecting the first and then the second from the state the first
    left: the entries are those of the first followed by those of the
    second, and an exception in the first stops the walk there. *)
Theorem collect_declarations_app (ast1 ast2 : list Node) (w : world) :
  AutoGen.collect_declarations (ast1 ++ ast2) w
  = match AutoGen.collect_declarations ast1 w with
    | (w1, Ok decls1) =>
        match AutoGen.collect_declarations ast2 w1 with
        | (w2, Ok decls2) => (w2, Ok (decls1 ++ decls2))
        | (w2, Raise e) => (w2, Raise e)
        end
    | (w1, Raise e) => (w1, Raise e)
    end.
Proof.
  destruct (visit_all_frame _ (flat_map_decl_nodes_Decl ast1))
    as (out1 & r1 & _ & Hv1).
  destruct (visit_all_frame _ (flat_map_decl_nodes_Decl ast2))
    as (out2 & r2 & _ & Hv2).
  unfold AutoGen.collect_declarations, FuncDeclVisitor.visit. unfold_M.
  rewrite flat_map_app, visit_all_app, Hv1.
  destruct r1 as [k1|e1]; cbn; [|reflexivity].
  rewrite !Hv2. destruct r2 as [k2|e2]; reflexivity.
Qed.

End visitor.

(** ** A run, step by step *)

Section steps.
Context {R : Renderer}.

(** [main] in one piece: the walk, the lines printed for the entries, the
    two generators that can raise, and the four files. *)
Lemma main_steps (ast : list Node) (w : world) :
  main ast w
  = match AutoGen.collect_declarations ast w with
    | (w1, Raise e) => (w1, Raise e)
    | (w1, Ok decls) =>
        let printed := stdout w1 ++ map entry_repr decls in
        match AutoGen.gen_ctx_decl (AutoGen.mk ast decls) with
        | Raise e => (World printed (files w1), Raise e)
        | Ok decl =>
            match AutoGen.gen_func_trampolines (AutoGen.mk ast decls) with
            | Raise e => (World printed (files w1), Raise e)
            | Ok trampolines =>
                (World printed
                   (written_files decl trampolines
                      (Py.join Py.nl
                         (["struct _HPyContext_s global_ctx = {";
                           "    .ctx_version = 1,"]
                            ++ map initializer decls ++ ["};"]))
                      (Py.join Py.nl
                         (["HPyContextS = rffi.CStruct('_HPyContext_s',";
                           "    ('ctx_version', rffi.INT_real),"]
                            ++ map (fun f =>
                                      "    ('" +:+ ctx_name f +:+ "', "
                                        +:+ ctx_pypy_type f +:+ "),") decls
                            ++ ["    hints={'eci': eci},"; ")"]))
                      (files w1)),
                 Ok ())
            end
        end
    end.
Proof.
  unfold main, AutoGen.__init__.
  unfold mbind, mret, M_bind, M_ret, lift.
  destruct (AutoGen.collect_declarations ast w) as [w1 [decls|e]];
    [|reflexivity].
  rewrite for_each_print. cbn [AutoGen.declarations stdout files].
  destruct (AutoGen.gen_ctx_decl (AutoGen.mk ast decls)) as [decl|e];
    [|reflexivity].
  destruct (AutoGen.gen_func_trampolines (AutoGen.mk ast decls))
    as [trampolines|e]; [|reflexivity].
  rewrite gen_ctx_def_text.
  unfold AutoGen.gen_pypy_decl, open_w, print_file.
  cbn [AutoGen.declarations stdout files mret result_ret].
  rewrite !write_block, !alter_insert_eq. reflexivity.
Qed.

(** X7.  A run that raises, in the walk or in a generator, leaves every
    file as it was: the four files are opened only after the four texts
    exist. *)
Theorem failed_run_writes_nothing (ast : list Node) (w : world) (e : exn) :
  (main ast w).2 = Raise e ->
  files (main ast w).1 = files w.
Proof.
  rewrite main_steps.
  pose proof (collect_declarations_files ast w) as Hfiles.
  destruct (AutoGen.collect_declarations ast w) as [w1 [decls|e1]];
    simpl in Hfiles; [|intros _; exact Hfiles].
  cbv zeta.
  destruct (AutoGen.gen_ctx_decl (AutoGen.mk ast decls)) as [decl|e2];
    [|intros _; exact Hfiles].
  destruct (AutoGen.gen_func_trampolines (AutoGen.mk ast decls))
    as [tr|e3]; [discriminate|intros _; exact Hfiles].
Qed.

(** X8.  A run never touches a file other than its four outputs: at any
    other path the disk holds after the run what it held before. *)
Theorem run_touches_only_outputs (ast : list Node) (w : world)
    (path : string) :
  path ∉ outputs ->
  files (main ast w).1 !! path = files w !! path.
Proof.
  intros Hpath. rewrite main_steps.
  pose proof (collect_declarations_files ast w) as Hfiles.
  destruct (AutoGen.collect_declarations ast w) as [w1 [decls|e1]];
    simpl in Hfiles; [|simpl; rewrite Hfiles; reflexivity].
  cbv zeta.
  destruct (AutoGen.gen_ctx_decl (AutoGen.mk ast decls)) as [decl|e2];
    [|simpl; rewrite Hfiles; reflexivity].
  destruct (AutoGen.gen_func_trampolines (AutoGen.mk ast decls))
    as [tr|e3]; [|simpl; rewrite Hfiles; reflexivity].
  cbn [fst files]. rewrite lookup_written_files, Hfiles.
  unfold outputs in Hpath.
  repeat case_decide; try reflexivity; subst path; exfalso; apply Hpath;
    repeat constructor.
Qed.

(** X9.  When the walk succeeds, [main] prints one line for each entry, in
    order, right after what the walk printed, and it does so before any
    generator runs: the lines are there even when a generator then
    raises. *)
Theorem entries_are_printed (ast : list Node) (w w1 : world)
    (decls : list entry) :
  AutoGen.collect_declarations ast w = (w1, Ok decls) ->
  stdout (main ast w).1 = stdout w1 ++ map entry_repr decls.
Proof.
  intros Hcollect. rewrite main_steps, Hcollect. cbv zeta.
  destruct (AutoGen.gen_ctx_decl (AutoGen.mk ast decls)) as [decl|e2];
    [|reflexivity].
  destruct (AutoGen.gen_func_trampolines (AutoGen.mk ast decls))
    as [tr|e3]; reflexivity.
Qed.

Lemma collect_declarations_ignored ast1 n ast2 :
  ignored n ->
  exists out1 out2 r, forall w,
    AutoGen.collect_declarations (ast1 ++ n :: ast2) w
    = (World (stdout w ++ out1) (files w), r)
    /\ AutoGen.collect_declarations (ast1 ++ ast2) w
       = (World (stdout w ++ out2) (files w), r).
Proof.
  intros Hign.
  destruct n as [| | | |nm ty| |]; try contradiction.
  destruct (visit_all_frame _ (flat_map_decl_nodes_Decl ast1))
    as (o1 & r1 & _ & Hv1).
  destruct (visit_all_frame _ (flat_map_decl_nodes_Decl ast2))
    as (o2 & r2 & _ & Hv2).
  destruct (visit_Decl_frame nm ty) as (on & rn & _ & Hrn & Hvn).
  rewrite (Hrn Hign) in Hvn. clear Hrn.
  unfold AutoGen.collect_declarations, FuncDeclVisitor.visit. unfold_M.
  rewrite !flat_map_app.
  change (flat_map FuncDeclVisitor.decl_nodes (Decl nm ty :: ast2))
    with (Decl nm ty :: flat_map FuncDeclVisitor.decl_nodes ast2).
  destruct r1 as [k1|e1].
  - destruct r2 as [k2|e2].
    + exists (o1 ++ on ++ o2), (o1 ++ o2), (Ok (k1 ++ k2)). intros w.
      rewrite !visit_all_app, !Hv1. cbn. unfold_M.
      rewrite Hvn. cbn. rewrite !Hv2. cbn.
      rewrite !app_nil_r, !app_assoc. split; reflexivity.
    + exists (o1 ++ on ++ o2), (o1 ++ o2), (Raise e2). intros w.
      rewrite !visit_all_app, !Hv1. cbn. unfold_M.
      rewrite Hvn. cbn. rewrite !Hv2. cbn.
      rewrite !app_assoc. split; reflexivity.
  - exists o1, o1, (Raise e1). intros w.
    rewrite !visit_all_app, !Hv1. split; reflexivity.
Qed.

(** X10.  A declaration the visitor ignores has no effect on what the run
    produces: with or without it in the tree, the run ends the same way
    and leaves the same files (only the warning on standard output
    differs). *)
Theorem ignored_declaration_changes_no_file (ast1 ast2 : list Node)
    (n : Node) (w : world) :
  ignored n ->
  (main (ast1 ++ n :: ast2) w).2 = (main (ast1 ++ ast2) w).2
  /\ files (main (ast1 ++ n :: ast2) w).1 = files (main (ast1 ++ ast2) w).1.
Proof.
  intros Hign.
  destruct (collect_declarations_ignored ast1 n ast2 Hign)
    as (out1 & out2 & r & Hcollect).
  destruct (Hcollect w) as [Ha Hb].
  rewrite !main_steps, Ha, Hb.
  destruct r as [decls|e]; [|split; reflexivity].
  cbv zeta.
  change (AutoGen.gen_ctx_decl (AutoGen.mk (ast1 ++ n :: ast2) decls))
    with (AutoGen.gen_ctx_decl (AutoGen.mk (ast1 ++ ast2) decls)).
  change (AutoGen.gen_func_trampolines
            (AutoGen.mk (ast1 ++ n :: ast2) decls))
    with (AutoGen.gen_func_trampolines (AutoGen.mk (ast1 ++ ast2) decls)).
  destruct (AutoGen.gen_ctx_decl (AutoGen.mk (ast1 ++ ast2) decls))
    as [decl|e2]; [|split; reflexivity].
  destruct (AutoGen.gen_func_trampolines (AutoGen.mk (ast1 ++ ast2) decls))
    as [tr|e3]; split; reflexivity.
Qed.

Lemma comprehension_Raise_elem {A B} (body : A -> result B) l x e :
  x ∈ l -> body x = Raise e -> exists e', comprehension body l = Raise e'.
Proof.
  intros Hin Hx. induction l as [|y l IH]; [inversion Hin|].
  cbn. apply elem_of_cons in Hin as [<-|Hin].
  - rewrite Hx. eauto.
  - destruct (body y) as [b|e1]; cbn; [|eauto].
    destruct (IH Hin) as [e' ->]. eauto.
Qed.

(** X11.  A kept prototype whose only parameter is the ellipsis passes the
    walk (it has no parameter without a name) and then stops the run: a
    generator raises, [main] ends with that exception, and no file is
    written. *)
Theorem lone_ellipsis_aborts_the_run (ast : list Node) (w w1 : world)
    (decls : list entry) (name : string) (dn : option string) (ret : Node) :
  AutoGen.collect_declarations ast w = (w1, Ok decls) ->
  Func (Function.mk name (Decl dn (FuncDecl (Some [EllipsisParam]) ret)))
    ∈ decls ->
  exists e, (main ast w).2 = Raise e /\ files (main ast w).1 = files w.
Proof.
  intros Hcollect Hin.
  pose proof (collect_declarations_files ast w) as Hfiles.
  rewrite Hcollect in Hfiles. simpl in Hfiles.
  assert (Hlines :
            AutoGen.trampoline_lines
              (Func (Function.mk name
                       (Decl dn (FuncDecl (Some [EllipsisParam]) ret))))
            = Raise IndexError).
  { assert (Hidx : Py.index [EllipsisParam] (-2) = Raise IndexError)
      by apply index_before_last_singleton.
    unfold AutoGen.trampoline_lines, trampoline_def,
      Function.trampoline_def, Function.trampoline_parts.
    cbn -[Py.index]. rewrite Hidx. reflexivity. }
  destruct (comprehension_Raise_elem _ _ _ _ Hin Hlines) as [e' Hcomp].
  rewrite main_steps, Hcollect. cbv zeta.
  destruct (AutoGen.gen_ctx_decl (AutoGen.mk ast decls)) as [decl|e2];
    [|exists e2; split; [reflexivity|exact Hfiles]].
  unfold AutoGen.gen_func_trampolines. cbn [AutoGen.declarations].
  rewrite Hcomp. exists e'. split; [reflexivity|exact Hfiles].
Qed.

Lemma named_by_attribute (params : list Node) :
  Forall (fun p => c_ast.hasattr_name p = true ->
                   exists nm, c_ast.name p = Ok (Some nm)) params ->
  Forall (fun p => c_ast.hasattr_name p = true) params ->
  exists names,
    Forall2 (fun p nm => c_ast.name p = Ok (Some nm)) params names.
Proof.
  induction 1 as [|p params Hp _ IH]; intros Hattr.
  - exists []. constructor.
  - inversion Hattr as [|p' params' Hpattr Hrest]; subst.
    destruct (Hp Hpattr) as [nm Hnm]. destruct (IH Hrest) as [names Hnames].
    exists (nm :: names). constructor; assumption.
Qed.

(** X12.  A kept function without ellipsis always gets its trampoline:
    when every parameter node can carry a name (as the parameters of a
    parsed prototype do), the walk has made sure they all have one, and
    the trampoline is the single call of the slot with those names, in
    order. *)
Theorem kept_function_has_trampoline (ast : list Node) (w w1 : world)
    (decls : list entry) (fn : Function.t) (dn : option string)
    (params : list Node) (ret : Node) :
  AutoGen.collect_declarations ast w = (w1, Ok decls) ->
  Func fn ∈ decls ->
  Function.node fn = Decl dn (FuncDecl (Some params) ret) ->
  Forall (fun p => c_ast.hasattr_name p = true) params ->
  exists names,
    Forall2 (fun p nm => c_ast.name p = Ok (Some nm)) params names
    /\ Function.trampoline_def fn
       = Ok (Some
               (Py.join " "
                  ["static inline"; toC (Function.node fn);
                   "{" +:+ Py.nl +:+ "    ";
                   if String.eqb (toC ret) "void"
                   then "ctx->" +:+ Function.ctx_name fn
                   else "return ctx->" +:+ Function.ctx_name fn;
                   "("; Py.join ", " names; ");"; Py.nl +:+ "}"])).
Proof.
  intros Hcollect Hin Hnode Hattr.
  destruct (collect_declarations_frame ast) as (out & r & Hwf & Hframe).
  rewrite Hframe in Hcollect. injection Hcollect as _ ->.
  specialize (Hwf decls eq_refl).
  rewrite Forall_forall in Hwf. specialize (Hwf _ Hin).
  destruct Hwf as (params' & ret' & Hnode' & Hnamed).
  rewrite Hnode in Hnode'. injection Hnode' as -> <- <-.
  destruct (named_by_attribute _ Hnamed Hattr) as [names Hnames].
  exists names. split; [exact Hnames|].
  destruct fn as [name node]. cbn in Hnode. subst node.
  unfold Function.trampoline_def.
  rewrite (plain_trampoline name _ ret params names Hnames). reflexivity.
Qed.

End steps.

(** ** The methods of [Function] *)

Lemma is_varargs_last name dn params ret :
  Function.is_varargs
    (Function.mk name (Decl dn (FuncDecl (Some params) ret)))
  = Ok (match last params with
        | Some EllipsisParam => true
        | _ => false
        end).
Proof.
  unfold Function.is_varargs.
  cbn [Function.node c_ast.type c_ast.args_params mbind result_bind].
  destruct (last params) as [p|] eqn:Hlast.
  - apply last_Some in Hlast as [params' ->].
    rewrite length_app. cbn [length].
    destruct (Z.ltb_spec 0 (Z.of_nat (length params' + 1))) as [_|Hle];
      [|lia].
    rewrite index_last. destruct p; reflexivity.
  - apply last_None in Hlast. subst params. reflexivity.
Qed.

(** X13.  [is_varargs] looks at the last parameter only: it is true
    exactly when the parameter list is not empty and ends with the
    ellipsis, it is false (and does not raise) on an empty list, and it
    raises [AttributeError] when the prototype has no parameter list. *)
Theorem is_varargs_reads_the_last_parameter (name : string)
    (dn : option string) (args : option (list Node)) (ret : Node) :
  Function.is_varargs (Function.mk name (Decl dn (FuncDecl args ret)))
  = match args with
    | Some params =>
        Ok (match last params with
            | Some EllipsisParam => true
            | _ => false
            end)
    | None => Raise AttributeError
    end.
Proof.
  destruct args as [params|]; [apply is_varargs_last|reflexivity].
Qed.




Section slots.
Context {R : Renderer}.

(** X15.  The field of a function without ellipsis keeps every parameter:
    it is the text of the declaration turned into a pointer to function
    and renamed to the slot, with the parameter list as it was. *)
Theorem plain_ctx_decl (name : string) (dn : option string) (ret : Node)
    (params : list Node) :
  is_Ok (Function._find_typedecl ret) = true ->
  last params <> Some EllipsisParam ->
  let self := Function.mk name (Decl dn (FuncDecl (Some params) ret)) in
  Function.ctx_decl self
  = Ok (toC (Decl dn
               (PtrDecl []
                  (FuncDecl (Some params)
                     (Function.set_typedecl_declname ret
                        (Function.ctx_name self)))))).
Proof.
  intros Hret Hlast self.
  unfold Function.ctx_decl, self.
  cbn [Function.node c_ast.type c_ast.set_type mbind result_bind
       Function._find_typedecl].
  destruct (Function._find_typedecl ret) as [td|e]; [|discriminate Hret].
  rewrite is_varargs_last.
  destruct (last params) as [[]|]; try reflexivity. contradiction.
Qed.

Lemma startswith_refl (p : string) : Py.startswith p p = true.
Proof.
  unfold Py.startswith. induction p as [|c p IH]; [reflexivity|].
  rewrite prefix_cons. destruct (ascii_dec c c); [exact IH|contradiction].
Qed.

Lemma trampoline_text_head fn t :
  Function.trampoline_def fn = Ok t ->
  exists rest,
    t = Some ("static inline " +:+ Py.join " " (toC (Function.node fn) :: rest)).
Proof.
  unfold Function.trampoline_def.
  destruct (Function.trampoline_parts fn) as [parts|e] eqn:Hparts;
    [|discriminate].
  destruct (trampoline_parts_head fn parts Hparts) as [rest ->].
  intros [= <-]. exists rest. reflexivity.
Qed.

(** X16.  Whenever a trampoline is generated for a function it is a text,
    never [None], and it opens with [static inline] followed by the
    declaration as it was written, under its declared name. *)
Theorem trampoline_opens_with_the_declaration (fn : Function.t)
    (t : option string) :
  Function.trampoline_def fn = Ok t ->
  exists text,
    t = Some text
    /\ Py.startswith text ("static inline " +:+ toC (Function.node fn))
       = true.
Proof.
  intros Hdef. destruct (trampoline_text_head fn t Hdef) as [rest ->].
  eexists. split; [reflexivity|].
  destruct rest as [|part rest].
  - change (Py.join " " [toC (Function.node fn)])
      with (toC (Function.node fn)).
    apply startswith_refl.
  - change (Py.join " " (toC (Function.node fn) :: part :: rest))
      with (toC (Function.node fn) +:+ " " +:+ Py.join " " (part :: rest)).
    rewrite <- append_assoc. apply startswith_append.
Qed.

End slots.

(** ** Slot names of kept entries *)

Lemma _CTX_NAME_decomposed (lead mid rest : string) :
  lead = "" \/ lead = "_" ->
  mid = "_" \/ (mid = "" /\ Py.startswith rest "_" = false) ->
  Function._CTX_NAME (lead +:+ "HPy" +:+ mid +:+ rest) = Some rest.
Proof.
  intros Hlead Hmid. unfold Function._CTX_NAME.
  assert (Htail : default (mid +:+ rest) (Py.strip_prefix "_" (mid +:+ rest))
                  = rest).
  { destruct Hmid as [->|[-> Hrest]]; [reflexivity|].
    change ("" +:+ rest) with rest.
    pose proof (strip_prefix_spec "_" rest) as Hspec.
    destruct (Py.strip_prefix "_" rest) as [r|]; [|reflexivity].
    subst rest. rewrite startswith_append in Hrest. discriminate Hrest. }
  destruct Hlead as [->| ->].
  - change (Py.strip_prefix "_" ("" +:+ "HPy" +:+ mid +:+ rest)) with (@None string).
    change (Py.strip_prefix "HPy" (default ("" +:+ "HPy" +:+ mid +:+ rest) None))
      with (Some (mid +:+ rest)).
    cbn [mbind option_bind]. rewrite Htail. reflexivity.
  - change (Py.strip_prefix "_" ("_" +:+ "HPy" +:+ mid +:+ rest))
      with (Some ("HPy" +:+ mid +:+ rest)).
    change (Py.strip_prefix "HPy" (default ("_" +:+ "HPy" +:+ mid +:+ rest)
                                     (Some ("HPy" +:+ mid +:+ rest))))
      with (Some (mid +:+ rest)).
    cbn [mbind option_bind]. rewrite Htail. reflexivity.
Qed.

(** X17.  Two functions whose names are written in the same style (the
    same optional leading underscore, the same optional underscore after
    [HPy]) never share a slot name unless they have the same name: a
    collision of slot names needs two names that differ in those
    underscores. *)
Theorem same_style_names_do_not_collide (lead mid rest1 rest2 : string)
    (node1 node2 : Node) :
  lead = "" \/ lead = "_" ->
  mid = "_"
  \/ (mid = "" /\ Py.startswith rest1 "_" = false
               /\ Py.startswith rest2 "_" = false) ->
  Function.ctx_name (Function.mk (lead +:+ "HPy" +:+ mid +:+ rest1) node1)
  = Function.ctx_name (Function.mk (lead +:+ "HPy" +:+ mid +:+ rest2) node2) ->
  lead +:+ "HPy" +:+ mid +:+ rest1 = lead +:+ "HPy" +:+ mid +:+ rest2.
Proof.
  intros Hlead Hmid. unfold Function.ctx_name. cbn [Function.name].
  rewrite !_CTX_NAME_decomposed; try assumption.
  - intros Heq. apply (inj (String.append "ctx_")) in Heq. rewrite Heq.
    reflexivity.
  - destruct Hmid as [Hmid|(Hmid & _ & H2)]; auto.
  - destruct Hmid as [Hmid|(Hmid & H1 & _)]; auto.
Qed.

Lemma ctx_name_accepted (fn : Function.t) :
  accepted_name (Func fn) ->
  exists rest, Function.ctx_name fn = "ctx_" +:+ rest.
Proof.
  destruct fn as [name node]. cbn. intros Hname.
  unfold Function.ctx_name, Function._CTX_NAME. cbn [Function.name].
  unfold Py.startswith in Hname.
  pose proof (strip_prefix_spec "_" name) as Hlead.
  destruct (Py.strip_prefix "_" name) as [r1|]; cbn [default from_option id].
  - subst name. change ("_" +:+ r1) with (String "_" r1) in Hname.
    rewrite !prefix_cons in Hname. cbn in Hname.
    pose proof (strip_prefix_spec "HPy" r1) as Htoken.
    destruct (Py.strip_prefix "HPy" r1) as [r2|]; cbn; [eauto|].
    unfold Py.startswith in Htoken. rewrite Htoken in Hname.
    destruct Hname as [Hname|Hname]; discriminate Hname.
  - pose proof (strip_prefix_spec "HPy" name) as Htoken.
    destruct (Py.strip_prefix "HPy" name) as [r2|]; cbn; [eauto|].
    unfold Py.startswith in Hlead, Htoken.
    destruct Hname as [Hname|Hname]; [congruence|].
    destruct name as [|c name]; [discriminate Hname|].
    rewrite prefix_cons in Hname, Hlead.
    destruct (ascii_dec "_" c); [|discriminate Hname].
    destruct name; discriminate Hlead.
Qed.

(** X18.  The slot of a kept function and the slot of a kept global never
    have the same name: the first starts with [ctx_], the second is the
    declared name, which starts with [h_]. *)
Theorem function_and_global_slots_differ (fn : Function.t)
    (g : GlobalVar.t) :
  accepted_name (Func fn) ->
  accepted_name (Var g) ->
  ctx_name (Func fn) <> ctx_name (Var g).
Proof.
  intros Hfn Hg. destruct (ctx_name_accepted fn Hfn) as [rest Hrest].
  cbn. rewrite Hrest. unfold GlobalVar.ctx_name.
  cbn in Hg. unfold Py.startswith in Hg.
  destruct (GlobalVar.name g) as [|c name]; [discriminate Hg|].
  rewrite prefix_cons in Hg.
  destruct (ascii_dec "h" c) as [<-|]; [|discriminate Hg].
  change ("ctx_" +:+ rest) with (String "c" ("tx_" +:+ rest)).
  intros Heq. discriminate Heq.
Qed.

(** * The script on concrete headers *)

Section concrete.
#[local] Existing Instance pycparser.

Example visit_HPyModule_Create :
  CGenerator.visit Sample.HPyModule_Create
  = "HPy HPyModule_Create(HPyContext ctx, HPyModuleDef *def)".
Proof. reflexivity. Qed.

Example visit_HPyErr_Format :
  CGenerator.visit Sample.HPyErr_Format
  = "void HPyErr_Format(HPyContext ctx, const char *fmt, ...)".
Proof. reflexivity. Qed.

Example run_public_api :
  (main Sample.public_api empty_world).2 = Ok ()
  /\ stdout (main Sample.public_api empty_world).1
     = ["GlobalVar(name='h_None')"; "Function(name='HPyModule_Create')";
        "Function(name='HPyErr_Format')"].
Proof. split; vm_compute; reflexivity. Qed.

Lemma variadic_trampoline_HPyErr_Format :
  Function.trampoline_def
    (Function.mk "HPyErr_Format" Sample.HPyErr_Format)
  = Ok (Some ("static inline void HPyErr_Format(HPyContext ctx, const char *fmt, ...) {"
                +:+ Py.nl
                +:+ "     va_list _vl; va_start(_vl, fmt); ctx->ctx_Err_Format ( ctx, fmt, _vl ); va_end(_vl); "
                +:+ Py.nl +:+ "}")).
Proof.
  refine (proj2 (proj2
    (variadic_trampoline "HPyErr_Format" (Some "HPyErr_Format")
       (TypeDecl (Some "HPyErr_Format") [] (IdentifierType ["void"]))
       [Sample.named "HPyContext" "ctx";
        Decl (Some "fmt")
          (PtrDecl [] (TypeDecl (Some "fmt") ["const"]
                         (IdentifierType ["char"])))]
       ["ctx"; "fmt"] "fmt" _ _))).
  - repeat constructor.
  - reflexivity.
Defined.

Lemma variadic_ctx_decl_HPyErr_Format :
  Function.ctx_decl (Function.mk "HPyErr_Format" Sample.HPyErr_Format)
  = Ok "void (*ctx_Err_Format)(HPyContext ctx, const char *fmt, va_list _vl)"
  /\ exists rest,
      Function.trampoline_def
        (Function.mk "HPyErr_Format" Sample.HPyErr_Format)
      = Ok (Some
              (Py.join " "
                 ("static inline"
                    :: "void HPyErr_Format(HPyContext ctx, const char *fmt, ...)"
                    :: rest))).
Proof.
  assert (Hnamed :
            Forall2 (fun p nm => c_ast.name p = Ok (Some nm))
              [Sample.named "HPyContext" "ctx";
               Decl (Some "fmt")
                 (PtrDecl [] (TypeDecl (Some "fmt") ["const"]
                                (IdentifierType ["char"])))]
              ["ctx"; "fmt"])
    by repeat constructor.
  destruct (variadic_ctx_decl "HPyErr_Format" (Some "HPyErr_Format")
              (TypeDecl (Some "HPyErr_Format") [] (IdentifierType ["void"]))
              _ _ eq_refl Hnamed)
    as (Hdecl & _ & _ & _ & Htrampoline).
  split; [exact Hdecl|].
  destruct Htrampoline as (rest & _ & Hdef); [discriminate|].
  exists rest. exact Hdef.
Defined.

(** The header with only [void HPy_Log(...);]: the declaration is kept,
    its field can be printed, and the trampoline raises [IndexError]; the
    name of the ellipsis is never asked for. *)
Lemma ellipsis_name_is_never_read :
  Py.index [EllipsisParam] (-2) <> Ok EllipsisParam
  /\ c_ast.name EllipsisParam = Raise AttributeError
  /\ Function.trampoline_def (Function.mk "HPy_Log" Sample.HPy_Log)
     <> Raise AttributeError
  /\ Function.trampoline_def (Function.mk "HPy_Log" Sample.HPy_Log)
     = Raise IndexError.
Proof. repeat split; try discriminate; reflexivity. Qed.

Lemma slot_name_of__HPy_Dump :
  exists lead mid rest,
    "_HPy_Dump" = lead +:+ "HPy" +:+ mid +:+ rest
    /\ (lead = "" \/ lead = "_")
    /\ (mid = "_" \/ (mid = "" /\ Py.startswith rest "_" = false))
    /\ ctx_name (Func (Function.mk "_HPy_Dump" (Sample.prototype "_HPy_Dump")))
       = "ctx_" +:+ rest.
Proof.
  exact (slot_name_rule
           (Func (Function.mk "_HPy_Dump" (Sample.prototype "_HPy_Dump")))
           (or_intror eq_refl)).
Defined.

(** The names of the specification's rule and of the script differ on a
    global and on a function with an underscore after [HPy]. *)
Lemma slot_names_differ_from_the_rule :
  let h_None := Var (GlobalVar.mk "h_None" Sample.h_None) in
  let close := Func (Function.mk "HPy_Close" (Sample.prototype "HPy_Close")) in
  ctx_name h_None = "h_None"
  /\ spec_slot_name "h_None" = "ctx_h_None"
  /\ ctx_name h_None <> spec_slot_name "h_None"
  /\ ctx_name close = "ctx_Close"
  /\ spec_slot_name "HPy_Close" = "ctx__Close"
  /\ ctx_name close <> spec_slot_name "HPy_Close".
Proof. repeat split; discriminate. Qed.

(** The slot of [HPyModule_Create] is set to [&ctx_Module_Create]; the
    trampoline is the function [HPyModule_Create]. *)
Lemma slot_is_not_bound_to_the_trampoline :
  let fn := Function.mk "HPyModule_Create" Sample.HPyModule_Create in
  ctx_impl_name (Func fn) = "&ctx_Module_Create"
  /\ ctx_impl_name (Func fn) <> "&" +:+ Function.name fn
  /\ Function.trampoline_def fn
     = Ok (Some ("static inline HPy HPyModule_Create(HPyContext ctx, HPyModuleDef *def) {"
                   +:+ Py.nl
                   +:+ "     return ctx->ctx_Module_Create ( ctx, def ); "
                   +:+ Py.nl +:+ "}")).
Proof. repeat split. discriminate. Qed.

(** On the sample header the description for PyPy starts with its first
    line, not with the disclaimer. *)
Lemma pypy_file_has_no_disclaimer :
  (main Sample.public_api empty_world).2 = Ok ()
  /\ exists text,
      files (main Sample.public_api empty_world).1 !! autogen_pypy = Some text
      /\ Py.startswith text DISCLAIMER = false.
Proof.
  split; [vm_compute; reflexivity|].
  eexists. split; vm_compute; reflexivity.
Qed.

Lemma disclaimer_heads_autogen_ctx :
  exists text,
    files (main Sample.public_api empty_world).1 !! autogen_ctx = Some text
    /\ Py.startswith text DISCLAIMER = true.
Proof.
  assert (Hrun : main Sample.public_api empty_world
                 = ((main Sample.public_api empty_world).1, Ok ()))
    by (vm_compute; reflexivity).
  destruct (disclaimer_heads_the_C_files _ _ _ Hrun) as [Hc _].
  apply Hc. apply list_elem_of_here.
Defined.

(** A header with one global: the global is kept and has its line in the
    struct, the initializer and the description for PyPy, and the file of
    trampolines is empty. *)
Lemma global_has_no_trampoline :
  (AutoGen.collect_declarations [Sample.h_None] empty_world).2
  = Ok [Var (GlobalVar.mk "h_None" Sample.h_None)]
  /\ AutoGen.gen_ctx_decl
       (AutoGen.mk [Sample.h_None] [Var (GlobalVar.mk "h_None" Sample.h_None)])
     = Ok (Py.join Py.nl
             ["struct _HPyContext_s {"; "    int ctx_version;";
              "    HPy h_None;"; "};"])
  /\ AutoGen.gen_func_trampolines
       (AutoGen.mk [Sample.h_None] [Var (GlobalVar.mk "h_None" Sample.h_None)])
     = Ok ""
  /\ files (main [Sample.h_None] empty_world).1 !! autogen_func
     = Some (DISCLAIMER +:+ Py.nl +:+ "" +:+ Py.nl).
Proof. repeat split; vm_compute; reflexivity. Qed.

Lemma public_api_keeps_declaration_order :
  exists decls,
    (AutoGen.collect_declarations Sample.public_api empty_world).2 = Ok decls
    /\ sublist (map entry_node decls)
         (flat_map FuncDeclVisitor.decl_nodes Sample.public_api).
Proof.
  assert (Hrun : main Sample.public_api empty_world
                 = ((main Sample.public_api empty_world).1, Ok ()))
    by (vm_compute; reflexivity).
  destruct (artifacts_keep_declaration_order _ _ _ Hrun)
    as (decls & fields & texts & Hcollect & Horder & _).
  exists decls. split; assumption.
Defined.

(** Two declarations that share a slot name: the run ends normally, the
    four files exist, and the initializer sets [.ctx_Close] twice. *)
Lemma collision_is_written :
  let close1 := Func (Function.mk "HPy_Close" (Sample.prototype "HPy_Close")) in
  let close2 := Func (Function.mk "HPyClose" (Sample.prototype "HPyClose")) in
  let run := main Sample.collide empty_world in
  (AutoGen.collect_declarations Sample.collide empty_world).2
  = Ok [close1; close2]
  /\ entry_name close1 <> entry_name close2
  /\ ctx_name close1 = ctx_name close2
  /\ run.2 = Ok ()
  /\ Forall (fun path => is_Some (files run.1 !! path)) outputs
  /\ files run.1 !! autogen_ctx_def
     = Some (DISCLAIMER +:+ Py.nl
               +:+ Py.join Py.nl
                     ["struct _HPyContext_s global_ctx = {";
                      "    .ctx_version = 1,";
                      "    .ctx_Close = &ctx_Close,";
                      "    .ctx_Close = &ctx_Close,";
                      "};"]
               +:+ Py.nl).
Proof.
  repeat split; try discriminate; try (vm_compute; reflexivity).
  unfold outputs. repeat (apply Forall_cons_2; [vm_compute; eauto|]).
  apply Forall_nil_2.
Qed.

Lemma collision_of_HPy_Close :
  exists w',
    main Sample.collide empty_world = (w', Ok ())
    /\ Forall (fun path => is_Some (files w' !! path)) outputs
    /\ ~ NoDup (map ctx_name
                  [Func (Function.mk "HPy_Close" (Sample.prototype "HPy_Close"));
                   Func (Function.mk "HPyClose" (Sample.prototype "HPyClose"))]).
Proof.
  destruct (slot_collision_goes_unnoticed Sample.collide empty_world
              empty_world
              [Func (Function.mk "HPy_Close" (Sample.prototype "HPy_Close"));
               Func (Function.mk "HPyClose" (Sample.prototype "HPyClose"))]
              0 1
              (Func (Function.mk "HPy_Close" (Sample.prototype "HPy_Close")))
              (Func (Function.mk "HPyClose" (Sample.prototype "HPyClose"))))
    as (w' & Hrun & Hfiles & Hdup & _).
  - reflexivity.
  - reflexivity.
  - reflexivity.
  - discriminate.
  - discriminate.
  - reflexivity.
  - reflexivity.
  - reflexivity.
  - exists w'. repeat split; assumption.
Defined.

Lemma unnamed_parameter_of_HPy_Dup :
  exists w' e,
    AutoGen.__init__ [Sample.h_None; Sample.HPy_Dup] empty_world
    = (w', Raise e)
    /\ main [Sample.h_None; Sample.HPy_Dup] empty_world = (w', Raise e)
    /\ files w' = files empty_world.
Proof.
  apply (malformed_declaration_is_fatal
           [Sample.h_None; Sample.HPy_Dup] Sample.HPy_Dup empty_world).
  - apply list_elem_of_further, list_elem_of_here.
  - left.
    exists "HPy_Dup", [Sample.named "HPyContext" "ctx";
                       Typename None (TypeDecl None [] (IdentifierType ["HPy"]))],
      (TypeDecl (Some "HPy_Dup") [] (IdentifierType ["HPy"])),
      (Typename None (TypeDecl None [] (IdentifierType ["HPy"]))).
    split; [reflexivity|]. split; [left; reflexivity|].
    split; [apply list_elem_of_further, list_elem_of_here|].
    split; reflexivity.
Defined.

(** A prototype that is not of the API, a counter, a table of handles and
    a prototype of the API without parameter list. *)
Lemma Py_Foo_is_ignored :
  FuncDeclVisitor.visit_Decl FuncDeclVisitor.__init__
    (Sample.prototype "Py_Foo") empty_world
  = (World ["WARNING: Ignoring non-hpy declaration: Py_Foo"] ∅,
     Ok FuncDeclVisitor.__init__).
Proof.
  exact (non_hpy_function_is_ignored FuncDeclVisitor.__init__ "Py_Foo"
           (Some [Sample.named "HPyContext" "ctx"])
           (TypeDecl (Some "Py_Foo") [] (IdentifierType ["void"]))
           empty_world eq_refl eq_refl).
Defined.

Lemma counter_is_ignored :
  FuncDeclVisitor.visit_Decl FuncDeclVisitor.__init__
    (Sample.named "int" "counter") empty_world
  = (World ["WARNING: Ignoring non-hpy variable declaration: counter"] ∅,
     Ok FuncDeclVisitor.__init__).
Proof.
  exact (non_hpy_variable_is_ignored FuncDeclVisitor.__init__ "counter"
           (Some "counter") [] (IdentifierType ["int"]) empty_world eq_refl).
Defined.

Lemma h_table_is_skipped :
  FuncDeclVisitor.visit_Decl FuncDeclVisitor.__init__
    (Decl (Some "h_table")
       (PtrDecl [] (TypeDecl (Some "h_table") [] (IdentifierType ["HPy"]))))
    empty_world
  = (empty_world, Ok FuncDeclVisitor.__init__).
Proof.
  exact (other_declaration_is_skipped FuncDeclVisitor.__init__
           (Some "h_table")
           (PtrDecl [] (TypeDecl (Some "h_table") [] (IdentifierType ["HPy"])))
           empty_world eq_refl eq_refl).
Defined.

Lemma HPy_Init_without_parameter_list :
  FuncDeclVisitor.visit_Decl FuncDeclVisitor.__init__
    (Decl (Some "HPy_Init")
       (FuncDecl None (TypeDecl (Some "HPy_Init") [] (IdentifierType ["int"]))))
    empty_world
  = (empty_world, Raise AttributeError).
Proof.
  exact (empty_parentheses_are_fatal FuncDeclVisitor.__init__ "HPy_Init"
           (TypeDecl (Some "HPy_Init") [] (IdentifierType ["int"]))
           empty_world (or_introl eq_refl)).
Defined.

Lemma public_api_entries_are_well_formed :
  Forall well_formed_entry
    [Var (GlobalVar.mk "h_None" Sample.h_None);
     Func (Function.mk "HPyModule_Create" Sample.HPyModule_Create);
     Func (Function.mk "HPyErr_Format" Sample.HPyErr_Format)].
Proof.
  apply (kept_entries_are_well_formed Sample.public_api empty_world
           empty_world).
  reflexivity.
Defined.

Lemma HPy_Log_writes_nothing :
  files (main [Sample.HPy_Log] empty_world).1 = files empty_world.
Proof.
  apply (failed_run_writes_nothing [Sample.HPy_Log] empty_world IndexError).
  vm_compute. reflexivity.
Defined.

Lemma public_api_h_is_not_touched :
  files (main Sample.public_api empty_world).1 !! "tools/public_api.h"
  = files empty_world !! "tools/public_api.h".
Proof.
  apply (run_touches_only_outputs Sample.public_api empty_world).
  unfold outputs. intros Hin.
  repeat (apply elem_of_cons in Hin as [Hin|Hin]; [discriminate Hin|]).
  inversion Hin.
Defined.

Lemma public_api_entries_are_printed :
  stdout (main Sample.public_api empty_world).1
  = [] ++ map entry_repr
            [Var (GlobalVar.mk "h_None" Sample.h_None);
             Func (Function.mk "HPyModule_Create" Sample.HPyModule_Create);
             Func (Function.mk "HPyErr_Format" Sample.HPyErr_Format)].
Proof.
  apply (entries_are_printed Sample.public_api empty_world empty_world).
  reflexivity.
Defined.

Lemma Py_Foo_changes_no_file :
  (main ([Sample.h_None] ++ Sample.prototype "Py_Foo"
           :: [Sample.HPyModule_Create]) empty_world).2
  = (main ([Sample.h_None] ++ [Sample.HPyModule_Create]) empty_world).2
  /\ files (main ([Sample.h_None] ++ Sample.prototype "Py_Foo"
                    :: [Sample.HPyModule_Create]) empty_world).1
     = files (main ([Sample.h_None] ++ [Sample.HPyModule_Create])
                empty_world).1.
Proof.
  apply (ignored_declaration_changes_no_file [Sample.h_None]
           [Sample.HPyModule_Create] (Sample.prototype "Py_Foo") empty_world).
  split; reflexivity.
Defined.

Lemma HPy_Log_aborts_the_run :
  exists e,
    (main [Sample.h_None; Sample.HPy_Log] empty_world).2 = Raise e
    /\ files (main [Sample.h_None; Sample.HPy_Log] empty_world).1
       = files empty_world.
Proof.
  apply (lone_ellipsis_aborts_the_run [Sample.h_None; Sample.HPy_Log]
           empty_world empty_world
           [Var (GlobalVar.mk "h_None" Sample.h_None);
            Func (Function.mk "HPy_Log" Sample.HPy_Log)]
           "HPy_Log" (Some "HPy_Log")
           (TypeDecl (Some "HPy_Log") [] (IdentifierType ["void"]))).
  - reflexivity.
  - apply list_elem_of_further, list_elem_of_here.
Defined.

Lemma HPyModule_Create_has_trampoline :
  exists names,
    Forall2 (fun p nm => c_ast.name p = Ok (Some nm))
      [Sample.named "HPyContext" "ctx";
       Decl (Some "def")
         (PtrDecl [] (TypeDecl (Some "def") []
                        (IdentifierType ["HPyModuleDef"])))]
      names
    /\ Function.trampoline_def
         (Function.mk "HPyModule_Create" Sample.HPyModule_Create)
       = Ok (Some
               (Py.join " "
                  ["static inline";
                   "HPy HPyModule_Create(HPyContext ctx, HPyModuleDef *def)";
                   "{" +:+ Py.nl +:+ "    ";
                   "return ctx->ctx_Module_Create";
                   "("; Py.join ", " names; ");"; Py.nl +:+ "}"])).
Proof.
  assert (Hin : Func (Function.mk "HPyModule_Create" Sample.HPyModule_Create)
                ∈ [Var (GlobalVar.mk "h_None" Sample.h_None);
                   Func (Function.mk "HPyModule_Create"
                           Sample.HPyModule_Create);
                   Func (Function.mk "HPyErr_Format" Sample.HPyErr_Format)])
    by apply list_elem_of_further, list_elem_of_here.
  assert (Hattr : Forall (fun p => c_ast.hasattr_name p = true)
                    [Sample.named "HPyContext" "ctx";
                     Decl (Some "def")
                       (PtrDecl [] (TypeDecl (Some "def") []
                                      (IdentifierType ["HPyModuleDef"])))])
    by repeat constructor.
  exact (kept_function_has_trampoline Sample.public_api empty_world
           empty_world _
           (Function.mk "HPyModule_Create" Sample.HPyModule_Create)
           (Some "HPyModule_Create") _
           (TypeDecl (Some "HPyModule_Create") [] (IdentifierType ["HPy"]))
           eq_refl Hin eq_refl Hattr).
Defined.


Lemma plain_ctx_decl_HPyModule_Create :
  Function.ctx_decl (Function.mk "HPyModule_Create" Sample.HPyModule_Create)
  = Ok "HPy (*ctx_Module_Create)(HPyContext ctx, HPyModuleDef *def)".
Proof.
  refine (plain_ctx_decl "HPyModule_Create" (Some "HPyModule_Create")
            (TypeDecl (Some "HPyModule_Create") [] (IdentifierType ["HPy"]))
            [Sample.named "HPyContext" "ctx";
             Decl (Some "def")
               (PtrDecl [] (TypeDecl (Some "def") []
                              (IdentifierType ["HPyModuleDef"])))]
            eq_refl _).
  discriminate.
Defined.

Lemma trampoline_of_HPyModule_Create_opens_with_its_declaration :
  exists text,
    Function.trampoline_def
      (Function.mk "HPyModule_Create" Sample.HPyModule_Create)
    = Ok (Some text)
    /\ Py.startswith text
         "static inline HPy HPyModule_Create(HPyContext ctx, HPyModuleDef *def)"
       = true.
Proof.
  destruct (trampoline_opens_with_the_declaration
              (Function.mk "HPyModule_Create" Sample.HPyModule_Create) _
              eq_refl) as (text & Htext & Hhead).
  injection Htext as <-.
  eexists. split; [reflexivity|exact Hhead].
Defined.

Lemma same_style_HPy_Close :
  "" +:+ "HPy" +:+ "_" +:+ "Close" = "" +:+ "HPy" +:+ "_" +:+ "Close".
Proof.
  exact (same_style_names_do_not_collide "" "_" "Close" "Close"
           (Sample.prototype "HPy_Close") (Sample.prototype "HPy_Close")
           (or_introl eq_refl) (or_introl eq_refl) eq_refl).
Defined.

Lemma HPy_Close_and_h_None_slots_differ :
  ctx_name (Func (Function.mk "HPy_Close" (Sample.prototype "HPy_Close")))
  = "ctx_Close"
  /\ ctx_name (Var (GlobalVar.mk "h_None" Sample.h_None)) = "h_None"
  /\ ctx_name (Func (Function.mk "HPy_Close" (Sample.prototype "HPy_Close")))
     <> ctx_name (Var (GlobalVar.mk "h_None" Sample.h_None)).
Proof.
  split; [reflexivity|split; [reflexivity|]].
  exact (function_and_global_slots_differ
           (Function.mk "HPy_Close" (Sample.prototype "HPy_Close"))
           (GlobalVar.mk "h_None" Sample.h_None)
           (or_introl eq_refl) eq_refl).
Defined.

(** A variadic function with a variadic callback among its fixed
    parameters is kept, and the field printed for it still holds the
    ellipsis of the callback. *)
Lemma callback_ellipsis_is_printed :
  let each := Function.mk "HPy_Each" Sample.HPy_Each in
  let run := main [Sample.HPy_Each] empty_world in
  (AutoGen.collect_declarations [Sample.HPy_Each] empty_world).2
  = Ok [Func each]
  /\ Function.is_varargs each = Ok true
  /\ Function.ctx_decl each
     = Ok "void (*ctx_Each)(HPyContext ctx, int (*cb)(const char *fmt, ...), va_list _vl)"
  /\ Py.contains "..."
       "void (*ctx_Each)(HPyContext ctx, int (*cb)(const char *fmt, ...), va_list _vl)"
     = true
  /\ run.2 = Ok ()
  /\ exists text,
      files run.1 !! autogen_ctx = Some text
      /\ Py.contains "..." text = true.
Proof.
  repeat split; try (vm_compute; reflexivity).
  eexists. split; vm_compute; reflexivity.
Qed.

(** A table of handles named with the prefix of the constants is not a
    handle: the run ends normally, without a warning and with no entry for
    it, and writes its four files.  A handle declared [const] is kept. *)
Lemma pointer_constant_is_not_fatal :
  let run := main [Sample.h_table] empty_world in
  (AutoGen.collect_declarations [Sample.h_table] empty_world).2 = Ok []
  /\ run.2 = Ok ()
  /\ stdout run.1 = []
  /\ Forall (fun path => is_Some (files run.1 !! path)) outputs
  /\ (AutoGen.collect_declarations [Sample.h_flag] empty_world).2
     = Ok [Var (GlobalVar.mk "h_flag" Sample.h_flag)]
  /\ (main [Sample.h_flag] empty_world).2 = Ok ().
Proof.
  repeat split; try (vm_compute; reflexivity).
  unfold outputs. repeat (apply Forall_cons_2; [vm_compute; eauto|]).
  apply Forall_nil_2.
Qed.

End concrete.
